(** * TaskFlow AI: input classification, session memory and the orchestrator pipeline

    Shallow embedding of
    - [src/agents/input_processor.py] ([InputProcessorAgent]),
    - [src/utils/memory.py] ([SessionMemory]),
    - [src/agents/parser_agent.py], [src/agents/enricher_agent.py],
      [src/agents/vikunja_agent.py] (the agent wrappers), and
    - [src/agents/orchestrator.py] ([TaskFlowOrchestrator]).

    Strings are Stdlib [string]s (ASCII); Python's [str.lower] and
    [str.strip] are modelled on the ASCII range. The LLM, the email parser,
    the voice transcriber, the Vikunja HTTP client, the tracer and the clock
    are collaborators supplied by an environment record. *)

From Stdlib Require Import String Ascii ZArith List QArith Qabs Bool Lia.
Import ListNotations.
Open Scope string_scope.

(** ** Python string helpers *)
Module PyStr.

(** [str.lower] on one ASCII character: 'A'..'Z' are mapped to 'a'..'z'. *)
Definition lower_char (c : ascii) : ascii :=
  let n := nat_of_ascii c in
  if (65 <=? n)%nat && (n <=? 90)%nat then ascii_of_nat (n + 32)%nat else c.

Fixpoint lower (s : string) : string :=
  match s with
  | EmptyString => EmptyString
  | String c s' => String (lower_char c) (lower s')
  end.

(** [s.startswith(p)] *)
Fixpoint startswith (s p : string) {struct p} : bool :=
  match p, s with
  | EmptyString, _ => true
  | String c p', String d s' => Ascii.eqb c d && startswith s' p'
  | String _ _, EmptyString => false
  end.

(** [p in s] (substring test) *)
Fixpoint contains (s p : string) : bool :=
  startswith s p ||
  match s with
  | EmptyString => false
  | String _ s' => contains s' p
  end.

(** Characters for which Python's [str.isspace] holds, on ASCII:
    \t \n \x0b \x0c \r \x1c \x1d \x1e \x1f and space. *)
Definition is_space (c : ascii) : bool :=
  let n := nat_of_ascii c in
  ((9 <=? n)%nat && (n <=? 13)%nat) || ((28 <=? n)%nat && (n <=? 32)%nat).

Fixpoint lstrip (s : string) : string :=
  match s with
  | EmptyString => EmptyString
  | String c s' => if is_space c then lstrip s' else s
  end.

Fixpoint rev_str (s : string) (acc : string) : string :=
  match s with
  | EmptyString => acc
  | String c s' => rev_str s' (String c acc)
  end.

(** [s.strip()] *)
Definition strip (s : string) : string :=
  rev_str (lstrip (rev_str (lstrip s) EmptyString)) EmptyString.

(** [s[:n]] for [n >= 0] *)
Definition take (n : nat) (s : string) : string := substring 0 n s.

(** [str(n)] for a Python int *)
Fixpoint digits_of_nat (fuel n : nat) (acc : string) : string :=
  match fuel with
  | O => acc
  | S fuel' =>
      let acc' := String (ascii_of_nat (48 + n mod 10)%nat) acc in
      if (n <? 10)%nat then acc' else digits_of_nat fuel' (n / 10)%nat acc'
  end.

Definition str_of_Z (z : Z) : string :=
  let d := digits_of_nat (S (Z.to_nat (Z.abs z))) (Z.to_nat (Z.abs z)) EmptyString in
  if (z <? 0)%Z then String "-" d else d.

(** [sep.join(xs)] *)
Fixpoint join (sep : string) (xs : list string) : string :=
  match xs with
  | [] => EmptyString
  | [x] => x
  | x :: xs' => x ++ sep ++ join sep xs'
  end.

(** A newline, as in Python's ["\n"]. *)
Definition nl : string := String (ascii_of_nat 10) EmptyString.

End PyStr.

(** ** [InputProcessorAgent.detect_input_type] *)
Module InputProcessor.
Import PyStr.

Definition detect_input_type (text : string) : string :=
  let text_lower := lower text in
  let email_indicators :=
    [startswith text_lower "from:"; contains text_lower "to:";
     contains text_lower "subject:"] in
  if existsb (fun b => b) email_indicators then "email"
  else
    let voice_indicators :=
      [contains text_lower "[voice]"; contains text_lower "audio:";
       contains text_lower ".wav" || contains text_lower ".mp3"] in
    if existsb (fun b => b) voice_indicators then "voice"
    else "text".

(** The channel resolution at the head of [detect_and_process]:
    [if input_type != "text" and input_type in ["email", "voice"]:
       detected_type = input_type] *)
Definition resolve_type (input_type detected_type : string) : string :=
  if negb (String.eqb input_type "text") &&
     existsb (String.eqb input_type) ["email"; "voice"]
  then input_type else detected_type.

End InputProcessor.

(** ** Python lists: the slice [l[start:]] *)
Module PyList.

(** [l[start:]]: a negative [start] counts from the end and is clipped at 0. *)
Definition slice_from {A} (l : list A) (start : Z) : list A :=
  if (start <? 0)%Z
  then skipn (Z.to_nat (Z.max 0 (Z.of_nat (length l) + start))) l
  else skipn (Z.to_nat start) l.

End PyList.

(** ** Python exceptions *)
Module PyExc.

(** A computation that returns a value or raises an exception, represented
    by its message [str(e)]. *)
Inductive res (A : Type) :=
| Ok (a : A)
| Raise (msg : string).
Arguments Ok {A} a.
Arguments Raise {A} msg.

End PyExc.

(** ** Python floats and [int / int] *)
Module PyFloat.
Import PyExc.

(** A finite IEEE 754 double: [(-1)^neg * mant * 2^exp]. The values
    [int / int] returns have [0 <= mant < 2^53] and [-1074 <= exp]. *)
Record pyfloat := mkPyFloat {
  fneg : bool;
  fmant : Z;
  fexp : Z
}.

(** [2^e] as a rational, for any integer [e]. *)
Definition pow2 (e : Z) : Q :=
  (inject_Z (2 ^ Z.max e 0) / inject_Z (2 ^ Z.max (- e) 0))%Q.

(** The real number a float denotes. *)
Definition fval (f : pyfloat) : Q :=
  ((if fneg f then -1 else 1) * inject_Z (fmant f) * pow2 (fexp f))%Q.

(** [floor(log2(a / b))] for [a, b > 0]. *)
Definition flog2_div (a b : Z) : Z :=
  let k := (Z.log2 a - Z.log2 b)%Z in
  if (b * 2 ^ Z.max k 0 <=? a * 2 ^ Z.max (- k) 0)%Z then k else (k - 1)%Z.

(** The exponent of the last mantissa bit of [a / b]: 53 significant bits,
    no lower than [-1074] (subnormals). *)
Definition round_exp (a b : Z) : Z := Z.max (flog2_div a b - 52) (-1074).

(** [a / b] scaled by [2^-e] and rounded to the nearest integer, ties to
    even. *)
Definition round_mant (a b e : Z) : Z :=
  let num := (a * 2 ^ Z.max (- e) 0)%Z in
  let den := (b * 2 ^ Z.max e 0)%Z in
  let q := (num / den)%Z in
  let r := (num mod den)%Z in
  if (den <? 2 * r)%Z || ((2 * r =? den)%Z && Z.odd q) then (q + 1)%Z else q.

(** Python's true division of two ints ([long_true_divide] in CPython):
    the correctly rounded quotient; [ZeroDivisionError] for [b = 0] and
    [OverflowError] when the rounded quotient does not fit a double. *)
Definition int_true_div (a b : Z) : res pyfloat :=
  if (b =? 0)%Z then Raise "division by zero"
  else
    let neg := xorb (a <? 0)%Z (b <? 0)%Z in
    if (a =? 0)%Z then Ok (mkPyFloat neg 0 0)
    else
      let e := round_exp (Z.abs a) (Z.abs b) in
      let m := round_mant (Z.abs a) (Z.abs b) e in
      if (2 ^ 1024 <=? m * 2 ^ Z.max e 0)%Z
      then Raise "integer division result too large for a float"
      else Ok (mkPyFloat neg m e).

End PyFloat.

(** ** [src/utils/memory.py] *)
Module Memory.
Import PyStr PyList PyExc PyFloat.

(** [@dataclass class Interaction] *)
Record Interaction := mkInteraction {
  itype : string;
  content : string;
  timestamp : string;
  channel : string;
  task_created : bool
}.

(** [@dataclass class TaskMemory] *)
Record TaskMemory := mkTaskMemory {
  task_id : Z;
  title : string;
  source : string;
  created_at : string;
  priority : Z;
  labels : list string
}.

(** [class SessionMemory]: the two lists, [self.ttl] and [self.max_items]. *)
Record SessionMemory := mkSessionMemory {
  interactions : list Interaction;
  created_tasks : list TaskMemory;
  ttl : Z;
  max_items : Z
}.

(** [SessionMemory(ttl_seconds, max_items)] *)
Definition new_memory (ttl_seconds max_items : Z) : SessionMemory :=
  mkSessionMemory [] [] ttl_seconds max_items.

(** The trimming step shared by both adders:
    [if len(xs) > self.max_items: xs = xs[-self.max_items:]] *)
Definition keep_recent {A} (max_items : Z) (xs : list A) : list A :=
  if (Z.of_nat (length xs) >? max_items)%Z
  then slice_from xs (- max_items)
  else xs.

(** [add_interaction(type_, content, channel)]; [now] is
    [datetime.utcnow().isoformat()]. *)
Definition add_interaction (m : SessionMemory) (now type_ content_ channel_ : string)
  : SessionMemory :=
  let interaction := mkInteraction type_ content_ now channel_ false in
  let xs := (interactions m ++ [interaction])%list in
  mkSessionMemory (keep_recent (max_items m) xs) (created_tasks m) (ttl m) (max_items m).

(** [add_task_created(task_id, title, source, priority, labels)] *)
Definition add_task_created (m : SessionMemory) (now : string) (task_id_ : Z)
  (title_ source_ : string) (priority_ : Z) (labels_ : list string) : SessionMemory :=
  let task := mkTaskMemory task_id_ title_ source_ now priority_ labels_ in
  let xs := (created_tasks m ++ [task])%list in
  mkSessionMemory (interactions m) (keep_recent (max_items m) xs) (ttl m) (max_items m).

(** One line of [get_context]:
    [f"- {task.title} (Priority: {task.priority}, Labels: {', '.join(task.labels)})\n"] *)
Definition render_task (t : TaskMemory) : string :=
  "- " ++ title t ++ " (Priority: " ++ str_of_Z (priority t) ++ ", Labels: "
  ++ join ", " (labels t) ++ ")" ++ nl.

Definition context_header : string := "Recent tasks created:" ++ nl.

(** [get_context(limit)] *)
Definition get_context (m : SessionMemory) (limit : Z) : string :=
  let recent_tasks := slice_from (created_tasks m) (- limit) in
  fold_left (fun ctx t => ctx ++ render_task t) recent_tasks context_header.

(** The dictionary returned by [get_user_patterns] when tasks exist.
    [average_priority] is [sum(...) / len(...)]: Python's true division of
    two ints, a float. *)
Record UserPatterns := mkUserPatterns {
  average_priority : pyfloat;
  common_labels : list string;
  preferred_source : option string;
  total_tasks : Z
}.

(** [all_labels.update(labels)] on a set kept as a duplicate-free list. *)
Definition set_update (s : list string) (xs : list string) : list string :=
  fold_left (fun acc x => if existsb (String.eqb x) acc then acc else (acc ++ [x])%list) xs s.

(** [d.get(k, 0)] on a dict kept as an insertion-ordered association list. *)
Fixpoint dict_get (d : list (string * Z)) (k : string) (dflt : Z) : Z :=
  match d with
  | [] => dflt
  | (k', v) :: d' => if String.eqb k k' then v else dict_get d' k dflt
  end.

(** [d[k] = v]: an existing key keeps its place, a new key goes last. *)
Fixpoint dict_set (d : list (string * Z)) (k : string) (v : Z) : list (string * Z) :=
  match d with
  | [] => [(k, v)]
  | (k', v') :: d' => if String.eqb k k' then (k', v) :: d' else (k', v') :: dict_set d' k v
  end.

(** [max(d, key=d.get)]: the first key, in dict order, whose value is largest. *)
Definition dict_argmax (d : list (string * Z)) : option string :=
  match d with
  | [] => None
  | (k0, v0) :: d' =>
      Some (fst (fold_left (fun best kv => if (snd kv >? snd best)%Z then kv else best)
                           d' (k0, v0)))
  end.

(** The [sources] counting loop of [get_user_patterns]. *)
Definition count_sources (ts : list TaskMemory) : list (string * Z) :=
  fold_left (fun d t => dict_set d (source t) (dict_get d (source t) 0 + 1)) ts [].

(** [get_user_patterns()]; [None] is the empty dict [{}]. The division
    raises [OverflowError] when the mean is too large for a float. *)
Definition get_user_patterns (m : SessionMemory) : res (option UserPatterns) :=
  match created_tasks m with
  | [] => Ok None
  | ts =>
      match int_true_div (fold_left Z.add (map priority ts) 0%Z) (Z.of_nat (length ts)) with
      | Raise e => Raise e
      | Ok avg_priority =>
          let all_labels := fold_left (fun s t => set_update s (labels t)) ts [] in
          let sources := count_sources ts in
          Ok (Some (mkUserPatterns avg_priority all_labels
                      (match sources with [] => None | _ => dict_argmax sources end)
                      (Z.of_nat (length ts))))
      end
  end.

End Memory.

(** ** The orchestrator pipeline *)
Module Pipeline.
Export PyExc.
Import PyStr PyList Memory InputProcessor.

Local Set Warnings "-register-all".

(** Python values as the collaborators return them (parsed JSON). *)
Inductive pyval :=
| PNone
| PBool (b : bool)
| PInt (z : Z)
| PStr (s : string)
| PList (xs : list pyval)
| PDict (d : list (string * pyval)).

(** Python truthiness, [if v:] *)
Definition truthy (v : pyval) : bool :=
  match v with
  | PNone => false
  | PBool b => b
  | PInt z => negb (z =? 0)%Z
  | PStr s => negb (String.eqb s "")
  | PList xs => negb (List.length xs =? 0)%nat
  | PDict d => negb (List.length d =? 0)%nat
  end.

(** [type(v).__name__], as in the messages of [AttributeError] and
    [TypeError]. *)
Definition type_name (v : pyval) : string :=
  match v with
  | PNone => "NoneType"
  | PBool _ => "bool"
  | PInt _ => "int"
  | PStr _ => "str"
  | PList _ => "list"
  | PDict _ => "dict"
  end.

(** The orchestrator object: [self.memory] and [self._initialized]. The
    sub-agents' own state (the [VikunjaBAgent] and its client) is not part
    of it: the orchestrator reaches them only through the collaborators of
    [Env] below. *)
Record Orchestrator := mkOrchestrator {
  memory : SessionMemory;
  initialized : bool
}.

(** Methods of the orchestrator mutate the object in place, and an
    exception does not undo a mutation: the state is returned on both paths. *)
Definition M (A : Type) := Orchestrator -> res A * Orchestrator.

Definition ret {A} (a : A) : M A := fun o => (Ok a, o).
Definition raise {A} (msg : string) : M A := fun o => (Raise msg, o).
Definition bind {A B} (m : M A) (f : A -> M B) : M B :=
  fun o => match m o with
           | (Ok a, o') => f a o'
           | (Raise e, o') => (Raise e, o')
           end.
Definition lift {A} (r : res A) : M A :=
  fun o => (r, o).
Definition gets {A} (f : Orchestrator -> A) : M A := fun o => (Ok (f o), o).
Definition modify (f : Orchestrator -> Orchestrator) : M unit :=
  fun o => (Ok tt, f o).

(** [try: body except Exception as e: handler(str(e))] *)
Definition try_except {A} (body : M A) (handler : string -> M A) : M A :=
  fun o => match body o with
           | (Ok a, o') => (Ok a, o')
           | (Raise e, o') => handler e o'
           end.

(** [try: body finally: fin]: an exception raised by [fin] replaces the
    outcome of [body]. *)
Definition try_finally {A} (body : M A) (fin : M unit) : M A :=
  fun o => match body o with
           | (r, o') => match fin o' with
                        | (Ok _, o'') => (r, o'')
                        | (Raise e, o'') => (Raise e, o'')
                        end
           end.

Notation "x <- m ;; k" := (bind m (fun x => k)) (at level 61, m at next level, right associativity).
Notation "' p <- m ;; k" := (bind m (fun x => match x with p => k end))
  (at level 61, p pattern, m at next level, right associativity).
Notation "m ;;; k" := (bind m (fun _ => k)) (at level 61, right associativity).

(** [d.get(key, default)]: a non-dict raises [AttributeError]. *)
Fixpoint assoc_get (d : list (string * pyval)) (k : string) : option pyval :=
  match d with
  | [] => None
  | (k', v) :: d' => if String.eqb k k' then Some v else assoc_get d' k
  end.

Definition py_get (v : pyval) (k : string) (dflt : pyval) : res pyval :=
  match v with
  | PDict d => Ok (match assoc_get d k with Some x => x | None => dflt end)
  | _ => Raise ("'" ++ type_name v ++ "' object has no attribute 'get'")
  end.

(** [d[key]]: [KeyError(key)] for a missing key, [TypeError] on a value
    that takes no string subscript. *)
Definition py_getitem (v : pyval) (k : string) : res pyval :=
  match v with
  | PDict d => match assoc_get d k with
               | Some x => Ok x
               | None => Raise ("'" ++ k ++ "'")
               end
  | PList _ => Raise "list indices must be integers or slices, not str"
  | PStr _ => Raise "string indices must be integers, not 'str'"
  | _ => Raise ("'" ++ type_name v ++ "' object is not subscriptable")
  end.

(** [d.setdefault(key, default)] (in place; the value itself is not used). *)
Definition py_setdefault (v : pyval) (k : string) (dflt : pyval) : res pyval :=
  match v with
  | PDict d => Ok (match assoc_get d k with
                   | Some _ => PDict d
                   | None => PDict (d ++ [(k, dflt)])%list
                   end)
  | _ => Raise ("'" ++ type_name v ++ "' object has no attribute 'setdefault'")
  end.

(** The collaborators: environment variables, the clock, the tracer and the
    external services (LLM, email parser, transcriber, Vikunja client). *)
Record Env := mkEnv {
  (** [os.getenv("GEMINI_API_KEY")] *)
  gemini_api_key : option string;
  (** [await self.vikunja_agent.initialize()] (catches its own errors) *)
  vikunja_initialize : bool;
  (** [datetime.utcnow().isoformat()] *)
  utcnow : string;
  (** [email_processor.extract_actionable_text(email_processor.parse_email(t))] *)
  email_actionable : string -> res string;
  (** [voice_processor.transcribe(path)] *)
  transcribe : string -> res string;
  (** [gemini_service.extract_task_structure(text)] *)
  gemini_extract : string -> res pyval;
  (** [gemini_service.enrich_task(task, context_str)], where [context_str] is
      [f"{context}\nUser patterns: {patterns}"]: it receives the two values
      the string is rendered from. *)
  gemini_enrich : pyval -> string -> option UserPatterns -> res pyval;
  (** [self.vikunja_client.create_task(title=task.get("title", ""), ...,
      source_type=source_type)] *)
  vikunja_create : pyval -> string -> res pyval;
  (** [self.tracer]: [None], or the effects of
      [self.tracer.start_as_current_span("process_input")] and of
      [trace_span.end()]. *)
  tracer : option (res unit * res unit)
}.

Section Agents.
Variable env : Env.

(** [InputProcessorAgent.process_text / process_email / process_voice] *)
Definition process_text (text : string) : res (string * string) :=
  Ok (strip text, "text").

Definition process_email (email_text : string) : res (string * string) :=
  match email_actionable env email_text with
  | Ok t => Ok (t, "email")
  | Raise e => Raise e
  end.

Definition process_voice (audio_path : string) : res (string * string) :=
  match transcribe env audio_path with
  | Ok t => Ok (t, "voice")
  | Raise e => Raise e
  end.

(** [InputProcessorAgent.detect_and_process(input_data, input_type)] for a
    string [input_data]. *)
Definition detect_and_process (text_content input_type : string) : res (string * string) :=
  let detected_type := resolve_type input_type (detect_input_type text_content) in
  if String.eqb detected_type "email" then process_email text_content
  else if String.eqb detected_type "voice" then process_voice text_content
  else process_text text_content.

(** [ParserAgent.extract_task_structure(text)] *)
Definition extract_task_structure (text : string) : res pyval :=
  match gemini_extract env text with
  | Raise e => Raise e
  | Ok task =>
      match py_setdefault task "title" (PStr (take 50 text)) with
      | Raise e => Raise e
      | Ok task =>
      match py_setdefault task "description" (PStr text) with
      | Raise e => Raise e
      | Ok task =>
      match py_setdefault task "priority" (PInt 1) with
      | Raise e => Raise e
      | Ok task =>
      match py_setdefault task "due_date" PNone with
      | Raise e => Raise e
      | Ok task => py_setdefault task "labels" (PList [])
      end end end end
  end.

(** [EnricherAgent.enrich_task(task)], reading the orchestrator's memory
    (the agent holds the same [SessionMemory] object). The first log line
    reads [task['title']]; the final [enriched_task.get('priority')] is the
    one in the last log line. *)
Definition enrich_task (task : pyval) : M pyval :=
  lift (py_getitem task "title") ;;;
  m <- gets memory ;;
  let context := get_context m 5 in
  patterns <- lift (get_user_patterns m) ;;
  enriched <- lift (gemini_enrich env task context patterns) ;;
  lift (py_get enriched "priority" PNone) ;;;
  ret enriched.

(** [VikunjaBAgent.create_task(task, source_type)]: the [task.get(...)]
    calls raise on a non-dict; the client's exceptions are re-raised. *)
Definition create_task (task : pyval) (source_type : string) : res pyval :=
  match task with
  | PDict _ => vikunja_create env task source_type
  | _ => Raise ("'" ++ type_name task ++ "' object has no attribute 'get'")
  end.

(** [TaskFlowOrchestrator.initialize()] *)
Definition initialize : M bool :=
  (* the result of the Vikunja check is only logged *)
  match gemini_api_key env with
  | None | Some "" => raise "GEMINI_API_KEY not set"
  | Some _ => modify (fun o => mkOrchestrator (memory o) true) ;;; ret true
  end.

(** The envelope returned by [process_input]. *)
Inductive Envelope :=
| Success (task_id title : pyval) (source : string) (priority labels : pyval)
| Failure (error : string) (source : string).

(** The body of the [try] block of [process_input]. *)
Definition process_body (input_data input_type : string) : M Envelope :=
  '(normalized_text, detected_type) <- lift (detect_and_process input_data input_type) ;;
  modify (fun o => mkOrchestrator
            (add_interaction (memory o) (utcnow env) input_type normalized_text detected_type)
            (initialized o)) ;;;
  task <- lift (extract_task_structure normalized_text) ;;
  enriched_task <- enrich_task task ;;
  created_task <- lift (create_task enriched_task detected_type) ;;
  task_id_ <- lift (if truthy created_task then py_get created_task "id" PNone
                    else Ok (PInt (-1))) ;;
  title_ <- lift (py_get enriched_task "title" PNone) ;;
  priority_ <- lift (py_get enriched_task "priority" PNone) ;;
  labels_ <- lift (py_get enriched_task "labels" (PList [])) ;;
  ret (Success task_id_ title_ detected_type priority_ labels_).

(** [TaskFlowOrchestrator.process_input(input_data, input_type)] *)
Definition process_input (input_data input_type : string) : M Envelope :=
  initialized_ <- gets initialized ;;
  (if initialized_ then ret true else initialize) ;;;
  trace_span <- lift (match tracer env with
                      | Some (start, _) =>
                          match start with Ok _ => Ok true | Raise e => Raise e end
                      | None => Ok false
                      end) ;;
  try_finally
    (try_except (process_body input_data input_type)
                (fun e => ret (Failure e input_type)))
    (if trace_span
     then lift (match tracer env with Some (_, fin) => fin | None => Ok tt end)
     else ret tt).

End Agents.
End Pipeline.

(** ** More Python string operations used by the tools *)
Module PyText.
Import PyStr.

(** [s[n:]] for [n >= 0] *)
Fixpoint drop (n : nat) (s : string) : string :=
  match n, s with
  | O, _ => s
  | S _, EmptyString => EmptyString
  | S n', String _ s' => drop n' s'
  end.

(** [s.endswith(p)] *)
Definition endswith (s p : string) : bool :=
  (String.length p <=? String.length s)%nat && String.eqb (drop (String.length s - String.length p) s) p.

(** [s[:-n]] for [n > 0]: empty when [len(s) <= n]. *)
Definition drop_last (n : nat) (s : string) : string := take (String.length s - n) s.

(** [s.split(sep)] for a one-character separator. *)
Fixpoint split_on (sep : ascii) (s : string) : list string :=
  match s with
  | EmptyString => [EmptyString]
  | String c s' =>
      if Ascii.eqb c sep then EmptyString :: split_on sep s'
      else match split_on sep s' with
           | w :: ws => String c w :: ws
           | [] => [String c EmptyString]
           end
  end.

Fixpoint replace_fuel (fuel : nat) (s old new : string) : string :=
  match fuel with
  | O => s
  | S f =>
      match s with
      | EmptyString => EmptyString
      | String c s' =>
          if startswith s old then new ++ replace_fuel f (drop (String.length old) s) old new
          else String c (replace_fuel f s' old new)
      end
  end.

(** [s.replace(old, new)] for a non-empty [old]: the occurrences of [old],
    taken from left to right without overlap, are replaced. Every step
    consumes at least one character, so [len(s)] steps suffice. *)
Definition replace (s old new : string) : string :=
  replace_fuel (String.length s) s old new.

(** The newline character. *)
Definition nlc : ascii := ascii_of_nat 10.

End PyText.

(** ** [src/tools/email_tools.py] ([EmailProcessor]) *)
Module EmailTools.
Import PyStr PyText.

(** The dict returned by [parse_email], keys "from", "to", "subject", "body". *)
Record EmailData := mkEmailData {
  from_ : string;
  to_ : string;
  subject : string;
  body : string
}.

(** The [for i, line in enumerate(lines)] loop of [parse_email]: the header
    fields it has set and [body_start] ([0] unless it stopped at a blank line). *)
Fixpoint scan_headers (lines : list string) (i : nat) (r : EmailData) : EmailData * nat :=
  match lines with
  | [] => (r, 0%nat)
  | line :: rest =>
      if startswith line "From:" then
        scan_headers rest (S i)
          (mkEmailData (strip (replace line "From:" "")) (to_ r) (subject r) (body r))
      else if startswith line "To:" then
        scan_headers rest (S i)
          (mkEmailData (from_ r) (strip (replace line "To:" "")) (subject r) (body r))
      else if startswith line "Subject:" then
        scan_headers rest (S i)
          (mkEmailData (from_ r) (to_ r) (strip (replace line "Subject:" "")) (body r))
      else if String.eqb (strip line) "" then (r, S i)
      else scan_headers rest (S i) r
  end.

(** [EmailProcessor.parse_email(email_text)] *)
Definition parse_email (email_text : string) : EmailData :=
  let lines := split_on nlc email_text in
  let (r, body_start) := scan_headers lines 0 (mkEmailData "" "" "" "") in
  mkEmailData (from_ r) (to_ r) (subject r) (strip (join nl (skipn body_start lines))).

(** [re.sub(r"^\s*" + lit + r".*", "", text, flags=re.MULTILINE)] for a
    literal [lit] whose first character is not whitespace.

    A match starts at a line start (position 0 or after a newline). There
    [\s*] is greedy, and since [lit] starts with a non-space character only
    the longest whitespace run can be followed by [lit]: the match exists iff
    [lit] follows that run, and then [.*] extends it up to (not including)
    the next newline. The scan resumes at the end of the match, which is not
    a line start. *)
Definition sig_match (lit s : string) : bool := startswith (lstrip s) lit.

Fixpoint to_eol (s : string) : string :=
  match s with
  | EmptyString => EmptyString
  | String c s' => if Ascii.eqb c nlc then s else to_eol s'
  end.

Definition after_match (lit s : string) : string := to_eol (drop (String.length lit) (lstrip s)).

Fixpoint sub_sig_fuel (fuel : nat) (lit s : string) (bol : bool) : string :=
  match fuel with
  | O => s
  | S f =>
      match s with
      | EmptyString => EmptyString
      | String c s' =>
          if bol && sig_match lit s then sub_sig_fuel f lit (after_match lit s) false
          else String c (sub_sig_fuel f lit s' (Ascii.eqb c nlc))
      end
  end.

Definition sub_sig (lit text : string) : string := sub_sig_fuel (String.length text) lit text true.

(** [EmailProcessor.extract_actionable_text(email_data)] *)
Definition extract_actionable_text (email_data : EmailData) : string :=
  let text := subject email_data ++ ". " ++ body email_data in
  let text := sub_sig "--" text in
  let text := sub_sig "Best," text in
  let text := sub_sig "Thanks," text in
  strip text.

End EmailTools.

(** ** [src/tools/voice_tools.py] ([VoiceProcessor]) *)
Module VoiceTools.
Import PyStr PyText Pipeline.

(** [Path(p).name] for a POSIX path: the last component, after empty and
    ["."] components are dropped; [""] when none is left. *)
Definition path_name (p : string) : string :=
  last (filter (fun x => negb (String.eqb x "") && negb (String.eqb x "."))
               (split_on "/" p)) "".

(** [self._load_mock_data()] *)
Definition mock_data : list (string * string) :=
  [("test_voice_1.wav", "Fix the login bug by Friday, it's critical");
   ("test_voice_2.wav", "Schedule team sync meeting about new API");
   ("test_voice_3.wav", "Review Q1 presentation, needs feedback")].

Fixpoint lookup (d : list (string * string)) (k : string) : option string :=
  match d with
  | [] => None
  | (k', v) :: d' => if String.eqb k k' then Some v else lookup d' k
  end.

(** The processor's settings and the outside world it reaches in real
    mode: the file system ([Path(p).exists()], which raises [OSError] on
    some paths, e.g. a name that is too long, before Python 3.13), [os.getenv("WHISPER_API_KEY")], the [openai]
    import, the Whisper and Gemini audio calls. *)
Record VoiceProcessor := mkVoiceProcessor {
  mode : string;
  service : string;
  path_exists : string -> res bool;
  whisper_api_key : option string;
  import_openai : res unit;
  whisper_call : string -> res string;
  gemini_audio : string -> res string
}.

(** [_transcribe_mock(file_path)] *)
Definition transcribe_mock (file_path : string) : string :=
  match lookup mock_data (path_name file_path) with
  | Some text => text
  | None => "Create new task with urgency"
  end.

(** [_transcribe_with_whisper(file_path)] (its handler re-raises) *)
Definition transcribe_with_whisper (vp : VoiceProcessor) (file_path : string) : res string :=
  match import_openai vp with
  | Raise e => Raise e
  | Ok _ =>
      match whisper_api_key vp with
      | None | Some EmptyString => Raise "WHISPER_API_KEY not set"
      | Some _ => whisper_call vp file_path
      end
  end.

(** [_transcribe_real(file_path)] *)
Definition transcribe_real (vp : VoiceProcessor) (file_path : string) : res string :=
  match path_exists vp file_path with
  | Raise e => Raise e
  | Ok false => Raise ("Audio file not found: " ++ file_path)
  | Ok true =>
      if String.eqb (service vp) "whisper" then transcribe_with_whisper vp file_path
      else if String.eqb (service vp) "gemini_audio" then gemini_audio vp file_path
      else Raise ("Unknown voice service: " ++ service vp)
  end.

(** [VoiceProcessor.transcribe(file_path)] *)
Definition transcribe (vp : VoiceProcessor) (file_path : string) : res string :=
  if String.eqb (mode vp) "mock" then Ok (transcribe_mock file_path)
  else transcribe_real vp file_path.

End VoiceTools.

(** ** [src/tools/gemini_tools.py] ([GeminiLLMService]) *)
Module GeminiTools.
Import PyStr PyText Pipeline.

(** The service: [self.api_key], and the model call. [generate] stands for
    [client.models.generate_content(...)] on the prompt built from its
    arguments; it returns [response.text], [None] when the response or its
    text is [None], and raises when the client does. [json_loads] is
    [json.loads]. *)
Record GeminiService := mkGeminiService {
  api_key : option string;
  generate_extract : string -> res (option string);
  generate_enrich : pyval -> string -> res (option string);
  json_loads : string -> res pyval
}.

Definition has_key (g : GeminiService) : bool :=
  match api_key g with None | Some EmptyString => false | Some _ => true end.

(** The dict returned when extraction cannot use the model. *)
Definition fallback (text : string) : pyval :=
  PDict [("title", PStr (take 50 text)); ("description", PStr text);
         ("priority", PInt 1); ("due_date", PNone); ("labels", PList [PStr "inbox"])].

(** [response.text.strip()] and the removal of markdown fences, then the
    [.strip()] applied to the argument of [json.loads]. *)
Definition clean_response (response_text : string) : string :=
  let t := strip response_text in
  let t := if startswith t "```json" then drop 7 t else t in
  let t := if startswith t "```" then drop 3 t else t in
  let t := if endswith t "```" then drop_last 3 t else t in
  strip t.

(** The two assertions on the parsed value. [task_data.get] exists only on a
    dict; on a list or string ["title" in task_data] may hold, but the
    following [.get] raises, and on other values [in] raises: every non-dict
    ends in the handler. [isinstance(x, int)] holds for ints and bools. *)
Definition validate (task_data : pyval) : option pyval :=
  match task_data with
  | PDict d =>
      match assoc_get d "title" with
      | None => None
      | Some _ =>
          match match assoc_get d "priority" with Some v => v | None => PInt 0 end with
          | PInt _ | PBool _ => Some task_data
          | _ => None
          end
      end
  | _ => None
  end.

(** [GeminiLLMService.extract_task_structure(text)] *)
Definition extract_task_structure (g : GeminiService) (text : string) : pyval :=
  if negb (has_key g) then fallback text
  else match generate_extract g text with
       | Raise _ => fallback text
       | Ok None | Ok (Some EmptyString) => fallback text
       | Ok (Some r) =>
           match json_loads g (clean_response r) with
           | Raise _ => fallback text
           | Ok task_data =>
               match validate task_data with
               | Some t => t
               | None => fallback text
               end
           end
       end.

(** [d[k] = v] on a dict of Python values *)
Fixpoint pydict_set (d : list (string * pyval)) (k : string) (v : pyval) : list (string * pyval) :=
  match d with
  | [] => [(k, v)]
  | (k', v') :: d' => if String.eqb k k' then (k', v) :: d' else (k', v') :: pydict_set d' k v
  end.

(** [{**a, **b}] *)
Definition merge (a b : list (string * pyval)) : list (string * pyval) :=
  fold_left (fun acc kv => pydict_set acc (fst kv) (snd kv)) b a.

(** [GeminiLLMService.enrich_task(task, context)]; [{**task, **enriched}]
    raises [TypeError] unless both are dicts, and the handler returns [task]. *)
Definition enrich_task (g : GeminiService) (task : pyval) (context : string) : pyval :=
  if negb (has_key g) then task
  else match generate_enrich g task context with
       | Raise _ => task
       | Ok None | Ok (Some EmptyString) => task
       | Ok (Some r) =>
           match json_loads g (clean_response r) with
           | Raise _ => task
           | Ok enriched =>
               match task, enriched with
               | PDict a, PDict b => PDict (merge a b)
               | _, _ => task
               end
           end
       end.

End GeminiTools.

(** ** [src/tools/vikunja_api.py] ([VikunjaBClient]) *)
Module VikunjaApi.
Import PyStr PyText Pipeline.

(** [COLOR_MAPPING.get(source_type.lower(), COLOR_MAPPING["default"])] *)
Definition COLOR_MAPPING : list (string * string) :=
  [("voice", "#03346E"); ("email", "#8C3061"); ("text", "#1A3636"); ("default", "#000000")].

Definition hex_color_for (source_type : string) : string :=
  match VoiceTools.lookup COLOR_MAPPING (lower source_type) with
  | Some c => c
  | None => "#000000"
  end.

(** The HTTP side: each request returns the status code, the result of
    [response.json()] (which may raise) and [response.text], or raises.
    [now_start] is [datetime.now().strftime("%Y-%m-%dT00:00:00Z")];
    [from_iso s] is [datetime.fromisoformat(s).strftime(...)], [None] when
    [fromisoformat] raises. [get_health] is the status of [GET /health]. *)
Record Http := mkHttp {
  get_health : res Z;
  post_login : res (Z * res pyval * string);
  put_task : pyval -> res (Z * res pyval * string);
  now_start : string;
  from_iso : string -> option string
}.

(** [self.token] (initially [None]) and [self.project_id]. *)
Record VikunjaBClient := mkVikunjaBClient {
  token : pyval;
  project_id : Z
}.

(** [authenticate()]: the result and the client after the call. *)
Definition authenticate (h : Http) (c : VikunjaBClient) : bool * VikunjaBClient :=
  match post_login h with
  | Ok (200%Z, Ok j, _) =>
      match py_get j "token" PNone with
      | Ok t => (true, mkVikunjaBClient t (project_id c))
      | Raise _ => (false, c)
      end
  | _ => (false, c)
  end.

(** The [start_date] computation; the bare [except] also catches the
    [AttributeError] of [.replace] on a non-string. *)
Definition start_date_of (h : Http) (due_date : pyval) : pyval :=
  if truthy due_date then
    match due_date with
    | PStr s => match from_iso h (replace s "Z" "+00:00") with
                | Some d => PStr d
                | None => due_date
                end
    | _ => due_date
    end
  else PStr (now_start h).

(** The request body. *)
Definition payload_of (h : Http) (c : VikunjaBClient) (title description priority due_date : pyval)
  (source_type : string) : pyval :=
  PDict ([("title", title); ("project_id", PInt (project_id c));
          ("start_date", start_date_of h due_date);
          ("hex_color", PStr (hex_color_for source_type))] ++
         (if truthy description then [("description", description)] else []) ++
         (match priority with PNone => [] | _ => [("priority", priority)] end))%list.

(** [create_task(title, description, priority, due_date, labels, source_type)];
    [labels] is not used by the request. The log line reads [task.get("id")]. *)
Definition create_task (h : Http) (c : VikunjaBClient)
  (title description priority due_date labels : pyval) (source_type : string)
  : res pyval * VikunjaBClient :=
  let (authed, c1) := if truthy (token c) then (true, c) else authenticate h c in
  if negb authed then (Raise "Not authenticated with Vikunja", c1)
  else
    let payload := payload_of h c1 title description priority due_date source_type in
    (match put_task h payload with
     | Raise e => Raise e
     | Ok (status, json, text) =>
         if (status =? 200)%Z || (status =? 201)%Z then
           match json with
           | Raise e => Raise e
           | Ok task =>
               match py_get task "id" PNone with
               | Ok _ => Ok task
               | Raise e => Raise e
               end
           end
         else Raise ("Vikunja error: " ++ text)
     end, c1).


(** [test_connection()] *)
Definition test_connection (h : Http) : bool :=
  match get_health h with
  | Ok status => (status =? 200)%Z
  | Raise _ => false
  end.

End VikunjaApi.

(** ** [src/agents/vikunja_agent.py] ([VikunjaBAgent]) *)
Module VikunjaAgent.
Import Pipeline VikunjaApi.

(** [self._initialized] and [self.vikunja_client]. *)
Record VikunjaBAgent := mkVikunjaBAgent {
  initialized_ : bool;
  client : VikunjaBClient
}.

(** [VikunjaBAgent.initialize()] *)
Definition initialize (h : Http) (a : VikunjaBAgent) : bool * VikunjaBAgent :=
  if initialized_ a then (true, a)
  else if negb (test_connection h) then (false, a)
  else
    let (ok, c1) := authenticate h (client a) in
    if ok then (true, mkVikunjaBAgent true c1) else (false, mkVikunjaBAgent false c1).

Definition get_or (d : list (string * pyval)) (k : string) (dflt : pyval) : pyval :=
  match assoc_get d k with Some v => v | None => dflt end.

(** [VikunjaBAgent.create_task(task, source_type)]: the log line's
    [task.get('title')] raises on a non-dict, and the handler re-raises. *)
Definition create_task (h : Http) (a : VikunjaBAgent) (task : pyval) (source_type : string)
  : res pyval * VikunjaBAgent :=
  match task with
  | PDict d =>
      let (r, c1) := VikunjaApi.create_task h (client a)
                       (get_or d "title" (PStr "")) (get_or d "description" (PStr ""))
                       (get_or d "priority" (PInt 1)) (get_or d "due_date" PNone)
                       (get_or d "labels" (PList [])) source_type in
      (r, mkVikunjaBAgent (initialized_ a) c1)
  | _ => (Raise ("'" ++ type_name task ++ "' object has no attribute 'get'"), a)
  end.

End VikunjaAgent.

(** ** The pipeline's collaborators built from the repository's tools *)
Module SourceEnv.
Import PyStr Memory Pipeline.

(** The orchestrator's environment when the input processor uses
    [EmailProcessor] and [VoiceProcessor], and the parser and enricher use
    [GeminiLLMService]. The enricher passes
    [f"{context}\nUser patterns: {patterns}"], where [repr_patterns]
    renders [str(patterns)]. Vikunja, the tracer and the clock stay
    parameters. *)
Definition source_env (key : option string) (vinit : bool) (now : string)
  (vp : VoiceTools.VoiceProcessor) (g : GeminiTools.GeminiService)
  (repr_patterns : option UserPatterns -> string)
  (create : pyval -> string -> res pyval) (tr : option (res unit * res unit)) : Env :=
  mkEnv key vinit now
    (fun t => Ok (EmailTools.extract_actionable_text (EmailTools.parse_email t)))
    (VoiceTools.transcribe vp)
    (fun t => Ok (GeminiTools.extract_task_structure g t))
    (fun task context patterns =>
       Ok (GeminiTools.enrich_task g task (context ++ nl ++ "User patterns: " ++ repr_patterns patterns)))
    create tr.

End SourceEnv.

(** * Specification vocabulary *)
Import PyStr PyList PyFloat Memory InputProcessor Pipeline.
Local Open Scope list_scope.
Local Open Scope string_scope.

(** [p] is a prefix, resp. a substring, of [s]. *)
Definition prefix_of (p s : string) : Prop := exists post, s = p ++ post.
Definition substring_of (p s : string) : Prop := exists pre post, s = pre ++ p ++ post.

(** The detection rules, read on the lower-cased input. *)
Definition email_rule (t : string) : Prop :=
  prefix_of "from:" t \/ substring_of "to:" t \/ substring_of "subject:" t.

Definition voice_rule (t : string) : Prop :=
  substring_of "[voice]" t \/ substring_of "audio:" t \/
  substring_of ".wav" t \/ substring_of ".mp3" t.

(** The last [n] elements of [l], in order. *)
Definition lastn {A} (n : nat) (l : list A) : list A := skipn (length l - n) l.

(** Both lists within capacity. *)
Definition store_inv (m : SessionMemory) : Prop :=
  (Z.of_nat (length (interactions m)) <= max_items m)%Z /\
  (Z.of_nat (length (created_tasks m)) <= max_items m)%Z.

(** A sequence of [add_interaction(type_, content, channel)] calls; each
    call carries the clock reading [now] it sees. *)
Definition add_interactions (m : SessionMemory)
  (calls : list (string * string * string * string)) : SessionMemory :=
  fold_left (fun m c => match c with (now, ty, ct, ch) => add_interaction m now ty ct ch end)
            calls m.

(** The record one call of [add_interactions] appends. *)
Definition interaction_of (c : string * string * string * string) : Interaction :=
  match c with (now, ty, ct, ch) => mkInteraction ty ct now ch false end.

Definition sample_calls : list (string * string * string * string) :=
  [("T1", "text", "a", "text"); ("T2", "text", "b", "text"); ("T3", "email", "c", "email")].

(** How many stored tasks come from source [s]; the sum of the priorities. *)
Definition count_source (s : string) (ts : list TaskMemory) : nat :=
  length (filter (fun t => String.eqb (source t) s) ts).

Definition sum_priorities (ts : list TaskMemory) : Z :=
  fold_right Z.add 0%Z (map priority ts).



(** The lazy initialisation on entry does not raise. *)
Definition init_ok (env : Env) (o : Orchestrator) : Prop :=
  initialized o = true \/ exists k, gemini_api_key env = Some k /\ k <> "".

(** Opening the tracing span does not raise. *)
Definition span_start_ok (env : Env) : Prop :=
  match tracer env with Some (Raise _, _) => False | _ => True end.

(** Neither opening nor closing the tracing span raises. *)
Definition span_ok (env : Env) : Prop :=
  match tracer env with
  | Some (Raise _, _) | Some (_, Raise _) => False
  | _ => True
  end.

(** [not gemini_key] is false: the key is set and non-empty. *)
Definition key_set (env : Env) : bool :=
  match gemini_api_key env with None | Some EmptyString => false | Some _ => true end.

(** What a successful run was built from: the resolved channel, the
    extracted and enriched task, and the Vikunja result. The task id is
    [created_task.get("id")] for a truthy result and [-1] otherwise. *)
Definition success_built_from (env : Env) input hint (m : SessionMemory)
  (tid ti : pyval) (ch : string) (pr lb : pyval) : Prop :=
  exists norm task patterns enriched created,
    detect_and_process env input hint = Ok (norm, ch) /\
    ch = resolve_type hint (detect_input_type input) /\
    extract_task_structure env norm = Ok task /\
    (let m1 := add_interaction m (utcnow env) hint norm ch in
     get_user_patterns m1 = Ok patterns /\
     gemini_enrich env task (get_context m1 5) patterns = Ok enriched) /\
    create_task env enriched ch = Ok created /\
    py_get enriched "title" PNone = Ok ti /\
    py_get enriched "priority" PNone = Ok pr /\
    py_get enriched "labels" (PList []) = Ok lb /\
    ((truthy created = false /\ tid = PInt (-1)) \/
     (truthy created = true /\ py_get created "id" PNone = Ok tid)).

(** Collaborators of the end-to-end scenarios: the LLM extracts
    [{title: "Fix login bug", priority: 3, labels: ["bug"]}], enrichment
    returns the task unchanged, the email parser yields "X. body text". *)
Definition scenario_env (key : option string) (create : pyval -> string -> res pyval) : Env :=
  mkEnv key true "2026-01-01T00:00:00"
    (fun _ => Ok "X. body text")
    (fun _ => Raise "audio file not found")
    (fun _ => Ok (PDict [("title", PStr "Fix login bug"); ("priority", PInt 3);
                         ("labels", PList [PStr "bug"])]))
    (fun task _ _ => Ok task)
    create
    None.

(** A fresh orchestrator (default [SESSION_TTL_SECONDS] and
    [MAX_MEMORY_ITEMS]), the inputs of scenarios A and B and the
    environments of the runs below. *)
Definition fresh : Orchestrator := mkOrchestrator (new_memory 3600 100) false.
Definition input_A : string := "Fix the login bug by Friday - it's critical".
Definition input_B : string := "From: a@b.com" ++ nl ++ "Subject: X" ++ nl ++ nl ++ "body text".
Definition env_A : Env := scenario_env (Some "key") (fun _ _ => Ok (PDict [("id", PInt 42)])).
Definition env_C : Env := scenario_env (Some "key") (fun _ _ => Raise "Vikunja error: unauthorized").
Definition env_noid : Env :=
  scenario_env (Some "key") (fun _ _ => Ok (PDict [("title", PStr "Fix login bug")])).

(** Scenario C with tracing on, as by default ([ENABLE_TRACING] unset):
    [trace_span] is the context manager returned by
    [start_as_current_span], which has no [end] method, so
    [trace_span.end()] raises [AttributeError]. *)
Definition span_end_error : string :=
  "'_AgnosticContextManager' object has no attribute 'end'".

Definition env_C_span : Env :=
  let e := env_C in
  mkEnv (gemini_api_key e) (vikunja_initialize e) (utcnow e) (email_actionable e)
        (transcribe e) (gemini_extract e) (gemini_enrich e) (vikunja_create e)
        (Some (Ok tt, Raise span_end_error)).

(** A store holding three tasks, the first two of them from different
    sources with one task each, and the last one without labels. *)
Definition sample_task (id : Z) (src : string) (lb : list string) : TaskMemory :=
  mkTaskMemory id ("task " ++ str_of_Z id) src "2026-01-01T00:00:00" 2 lb.

Definition memory_3 : SessionMemory :=
  mkSessionMemory [] [sample_task 1 "text" ["bug"; "auth"]; sample_task 2 "email" ["bug"];
                      sample_task 3 "voice" []] 3600 100.


Definition memory_tie : SessionMemory :=
  mkSessionMemory [] [sample_task 1 "text" ["bug"]; sample_task 2 "email" ["bug"]] 3600 100.

(** Whitespace-only strings and string reversal, used to reason about
    [strip]. *)
Fixpoint all_space (s : string) : bool :=
  match s with
  | EmptyString => true
  | String c s' => is_space c && all_space s'
  end.

Definition srev (s : string) : string := rev_str s EmptyString.

(** [sig_free lit s bol]: the pattern [^\s*LIT] of [re.sub(..., flags=re.MULTILINE)]
    matches at no line start of [s]; a line start is the start of [s] when
    [bol], and every position that follows a newline. *)
Fixpoint sig_free (lit s : string) (bol : bool) : bool :=
  match s with
  | EmptyString => true
  | String c s' => negb (bol && EmailTools.sig_match lit s) && sig_free lit s' (Ascii.eqb c PyText.nlc)
  end.

(** Voice processors, HTTP sides, clients and services used as concrete
    inputs below. *)
Definition mock_vp : VoiceTools.VoiceProcessor :=
  VoiceTools.mkVoiceProcessor "mock" "whisper" (fun _ => Ok false) None (Ok tt) (fun _ => Ok "") (fun _ => Ok "").

Definition real_vp : VoiceTools.VoiceProcessor :=
  VoiceTools.mkVoiceProcessor "real" "whisper" (fun _ => Ok true) (Some "sk-test") (Ok tt)
    (fun _ => Ok "Call the vendor") (fun _ => Ok "").

Definition echo_http : VikunjaApi.Http :=
  VikunjaApi.mkHttp (Ok 200%Z) (Ok (200%Z, Ok (PDict [("token", PStr "tok")]), ""))
    (fun p => Ok (201%Z, Ok p, "")) "2026-10-18T00:00:00Z" (fun _ => None).

Definition fresh_client : VikunjaApi.VikunjaBClient := VikunjaApi.mkVikunjaBClient PNone 7.

Definition failing_http : VikunjaApi.Http :=
  VikunjaApi.mkHttp (Ok 200%Z) (Ok (401%Z, Ok (PDict []), "bad credentials"))
    (fun _ => Ok (400%Z, Ok (PDict []), "invalid project")) "2026-10-18T00:00:00Z" (fun _ => None).

Definition tokenless_http : VikunjaApi.Http :=
  VikunjaApi.mkHttp (Ok 200%Z) (Ok (200%Z, Ok (PDict [("user", PStr "me")]), "{}"))
    (fun p => Ok (201%Z, Ok p, "")) "2026-10-18T00:00:00Z" (fun _ => None).

Definition agent_with_token : VikunjaAgent.VikunjaBAgent := VikunjaAgent.mkVikunjaBAgent true (VikunjaApi.mkVikunjaBClient (PStr "tok") 7).

Definition keyless_gemini : GeminiTools.GeminiService :=
  GeminiTools.mkGeminiService None (fun _ => Ok None) (fun _ _ => Ok None) (fun _ => Raise "no JSON").

Definition missing_vp : VoiceTools.VoiceProcessor :=
  VoiceTools.mkVoiceProcessor "real" "whisper" (fun _ => Ok false) (Some "sk-test") (Ok tt)
    (fun _ => Ok "") (fun _ => Ok "").

(** * Properties *)
Local Open Scope string_scope.

(** ** Strings: the boolean tests against their meaning *)

Lemma startswith_spec (s p : string) : startswith s p = true <-> prefix_of p s.
Proof.
  unfold prefix_of; revert s; induction p as [|c p IH]; intros s; simpl.
  - split; intros _; [now exists s | reflexivity].
  - destruct s as [|d s]; simpl.
    + split; [discriminate | intros [post Hp]; discriminate].
    + rewrite andb_true_iff, Ascii.eqb_eq, IH. split.
      * intros [-> [post ->]]. now exists post.
      * intros [post Hp]. injection Hp as -> Hs. split; [reflexivity | now exists post].
Qed.

Lemma contains_spec (s p : string) : contains s p = true <-> substring_of p s.
Proof.
  unfold substring_of; induction s as [|c s IH]; simpl; rewrite orb_true_iff, startswith_spec;
    unfold prefix_of.
  - split.
    + intros [[post Hp] | H]; [now exists EmptyString, post | discriminate].
    + intros [pre [post Hp]]. left. destruct pre; [now exists post | discriminate].
  - rewrite IH. split.
    + intros [[post Hp] | [pre [post Hp]]].
      * now exists EmptyString, post.
      * exists (String c pre), post. simpl. now rewrite Hp.
    + intros [[|c' pre] [post Hp]].
      * left. now exists post.
      * right. injection Hp as -> Hs. now exists pre, post.
Qed.

(** The three channels the classifier can return. *)
Lemma detect_input_type_cases (text : string) :
  detect_input_type text = "email" \/ detect_input_type text = "voice" \/
  detect_input_type text = "text".
Proof.
  unfold detect_input_type.
  destruct (existsb _ [_; _; _]); [auto|].
  destruct (existsb _ [_; _; _]); auto.
Qed.

Lemma existsb_id3 (a b c : bool) :
  existsb (fun x => x) [a; b; c] = true <-> a = true \/ b = true \/ c = true.
Proof. destruct a, b, c; simpl; intuition congruence. Qed.

(** C1: classification over [str(text).lower()] applies the email rule, then
    the voice rule, first match wins, and defaults to "text". *)
Theorem detect_input_type_priority (text : string) :
  (email_rule (lower text) -> detect_input_type text = "email") /\
  (~ email_rule (lower text) -> voice_rule (lower text) -> detect_input_type text = "voice") /\
  (~ email_rule (lower text) -> ~ voice_rule (lower text) -> detect_input_type text = "text").
Proof.
  unfold detect_input_type, email_rule, voice_rule.
  set (t := lower text).
  assert (He : existsb (fun b => b) [startswith t "from:"; contains t "to:"; contains t "subject:"]
               = true <-> prefix_of "from:" t \/ substring_of "to:" t \/ substring_of "subject:" t).
  { now rewrite existsb_id3, startswith_spec, !contains_spec. }
  assert (Hv : existsb (fun b => b) [contains t "[voice]"; contains t "audio:";
                                     contains t ".wav" || contains t ".mp3"] = true <->
               substring_of "[voice]" t \/ substring_of "audio:" t \/
               substring_of ".wav" t \/ substring_of ".mp3" t).
  { now rewrite existsb_id3, orb_true_iff, !contains_spec. }
  destruct (existsb _ [startswith t "from:"; _; _]) eqn:E1;
  destruct (existsb _ [contains t "[voice]"; _; _]) eqn:E2;
  repeat split; intros;
    first [ reflexivity
          | exfalso; apply H; now apply He
          | exfalso; apply H0; now apply Hv
          | apply He in H; congruence
          | apply Hv in H0; congruence ].
Qed.

(** ** Channel resolution *)

Lemma resolve_type_spec (hint d : string) :
  ((hint = "email" \/ hint = "voice") /\ resolve_type hint d = hint) \/
  (hint <> "email" /\ hint <> "voice" /\ resolve_type hint d = d).
Proof.
  unfold resolve_type; simpl.
  destruct (String.eqb_spec hint "email") as [->|He]; [left; auto|].
  destruct (String.eqb_spec hint "voice") as [->|Hv]; [left; auto|].
  right. rewrite andb_false_r. auto.
Qed.

(** C2: the hint overrides detection exactly when it is "email" or "voice";
    any other hint (in particular "text") leaves the detected channel, and the
    channel returned by [detect_and_process] is this resolved channel. *)
Theorem detect_and_process_channel (env : Env) (text hint : string) :
  match detect_and_process env text hint with
  | Ok (_, ch) =>
      ((hint = "email" \/ hint = "voice") /\ ch = hint) \/
      (hint <> "email" /\ hint <> "voice" /\ ch = detect_input_type text)
  | Raise _ => True
  end.
Proof.
  unfold detect_and_process.
  destruct (resolve_type_spec hint (detect_input_type text)) as [[Hh ->] | [He [Hv ->]]].
  - destruct Hh as [-> | ->]; simpl.
    + unfold process_email. destruct (email_actionable env text); auto.
    + unfold process_voice. destruct (transcribe env text); auto.
  - destruct (detect_input_type_cases text) as [E | [E | E]]; rewrite E; simpl.
    + unfold process_email. destruct (email_actionable env text); auto.
    + unfold process_voice. destruct (transcribe env text); auto.
    + right. auto.
Qed.

(** ** Session store capacity *)

Local Open Scope list_scope.
Local Open Scope nat_scope.

Lemma keep_recent_lastn {A} (m : Z) (xs : list A) :
  (1 <= m)%Z -> keep_recent m xs = lastn (Z.to_nat m) xs.
Proof.
  intros Hm. unfold keep_recent, slice_from, lastn.
  destruct (Z.of_nat (length xs) >? m)%Z eqn:E.
  - apply Z.gtb_lt in E. replace (- m <? 0)%Z with true by (symmetry; apply Z.ltb_lt; lia).
    f_equal. lia.
  - rewrite Z.gtb_ltb, Z.ltb_ge in E. replace (length xs - Z.to_nat m) with 0 by lia. reflexivity.
Qed.

Lemma lastn_app_lastn {A} (n : nat) (l ys : list A) :
  lastn n (lastn n l ++ ys) = lastn n (l ++ ys).
Proof.
  unfold lastn.
  assert (E : skipn (length l - n) l ++ ys = skipn (length l - n) (l ++ ys)).
  { rewrite skipn_app. now replace (length l - n - length l) with 0 by lia. }
  rewrite E, skipn_skipn, length_skipn, !length_app. f_equal. lia.
Qed.

Lemma lastn_short {A} (n : nat) (l : list A) : length l <= n -> lastn n l = l.
Proof. intros H. unfold lastn. now replace (length l - n) with 0 by lia. Qed.

Lemma lastn_app_long {A} (n : nat) (l xs : list A) :
  n <= length xs -> lastn n (l ++ xs) = lastn n xs.
Proof.
  intros H. unfold lastn. rewrite length_app, skipn_app, skipn_all2 by lia.
  simpl. f_equal. lia.
Qed.

Lemma length_lastn {A} (n : nat) (l : list A) : length (lastn n l) = Nat.min n (length l).
Proof. unfold lastn. rewrite length_skipn. lia. Qed.

Lemma add_interaction_lastn (m : SessionMemory) now ty ct ch :
  (1 <= max_items m)%Z ->
  interactions (add_interaction m now ty ct ch) =
    lastn (Z.to_nat (max_items m)) (interactions m ++ [mkInteraction ty ct now ch false]) /\
  created_tasks (add_interaction m now ty ct ch) = created_tasks m /\
  max_items (add_interaction m now ty ct ch) = max_items m.
Proof. intros Hm. simpl. rewrite keep_recent_lastn by exact Hm. auto. Qed.

Lemma add_task_created_lastn (m : SessionMemory) now id ti src pr lb :
  (1 <= max_items m)%Z ->
  created_tasks (add_task_created m now id ti src pr lb) =
    lastn (Z.to_nat (max_items m)) (created_tasks m ++ [mkTaskMemory id ti src now pr lb]) /\
  interactions (add_task_created m now id ti src pr lb) = interactions m /\
  max_items (add_task_created m now id ti src pr lb) = max_items m.
Proof. intros Hm. simpl. rewrite keep_recent_lastn by exact Hm. auto. Qed.

Lemma add_interactions_lastn (m : SessionMemory) calls :
  (1 <= max_items m)%Z -> (Z.of_nat (length (interactions m)) <= max_items m)%Z ->
  interactions (add_interactions m calls) =
    lastn (Z.to_nat (max_items m)) (interactions m ++ map interaction_of calls) /\
  max_items (add_interactions m calls) = max_items m.
Proof.
  unfold add_interactions. revert m.
  induction calls as [|[[[now ty] ct] ch] calls IH]; intros m Hm Hl; simpl.
  - rewrite app_nil_r, lastn_short by lia. auto.
  - destruct (add_interaction_lastn m now ty ct ch Hm) as [Hi [_ Hx]].
    destruct (IH (add_interaction m now ty ct ch)) as [IHi IHx].
    + now rewrite Hx.
    + rewrite Hi, Hx, length_lastn. lia.
    + rewrite IHi, IHx, Hi, Hx, lastn_app_lastn, <- app_assoc. auto.
Qed.

(** X27: for a positive capacity ([max_items >= 1]) and a store within
    it, each adder keeps both lists within [max_items], appends the new
    record last and drops the oldest records first; [max_items + k] calls
    of [add_interaction] leave exactly the [max_items] most recent
    interactions, in arrival order. *)
Theorem session_store_capacity (m : SessionMemory)
  (Hpos : (1 <= max_items m)%Z) (Hinv : store_inv m) :
  (forall now ty ct ch,
     store_inv (add_interaction m now ty ct ch) /\
     interactions (add_interaction m now ty ct ch) =
       lastn (Z.to_nat (max_items m)) (interactions m ++ [mkInteraction ty ct now ch false]) /\
     created_tasks (add_interaction m now ty ct ch) = created_tasks m) /\
  (forall now id ti src pr lb,
     store_inv (add_task_created m now id ti src pr lb) /\
     created_tasks (add_task_created m now id ti src pr lb) =
       lastn (Z.to_nat (max_items m)) (created_tasks m ++ [mkTaskMemory id ti src now pr lb]) /\
     interactions (add_task_created m now id ti src pr lb) = interactions m) /\
  (forall calls k, length calls = Z.to_nat (max_items m) + k -> 0 < k ->
     interactions (add_interactions m calls) = skipn k (map interaction_of calls) /\
     Z.of_nat (length (interactions (add_interactions m calls))) = max_items m).
Proof.
  destruct Hinv as [Hi Ht]. split; [|split].
  - intros now ty ct ch.
    destruct (add_interaction_lastn m now ty ct ch Hpos) as [E1 [E2 E3]].
    unfold store_inv. rewrite E1, E2, E3, length_lastn. repeat split; lia.
  - intros now id ti src pr lb.
    destruct (add_task_created_lastn m now id ti src pr lb Hpos) as [E1 [E2 E3]].
    unfold store_inv. rewrite E1, E2, E3, length_lastn. repeat split; lia.
  - intros calls k Hlen Hk.
    destruct (add_interactions_lastn m calls Hpos Hi) as [E _].
    rewrite E, lastn_app_long by (rewrite length_map; lia).
    unfold lastn. rewrite length_skipn, length_map, Hlen.
    replace (Z.to_nat (max_items m) + k - Z.to_nat (max_items m)) with k by lia.
    split; [reflexivity|]. lia.
Qed.

(** Witness of X27: a store of capacity 2, fed three interactions, keeps the
    last two. *)
Lemma session_store_capacity_witness :
  (1 <= max_items (new_memory 3600 2))%Z /\ store_inv (new_memory 3600 2) /\
  interactions (add_interactions (new_memory 3600 2) sample_calls) =
    skipn 1 (map interaction_of sample_calls).
Proof.
  assert (Hpos : (1 <= max_items (new_memory 3600 2))%Z) by (simpl; lia).
  assert (Hinv : store_inv (new_memory 3600 2)) by (unfold store_inv; simpl; lia).
  split; [exact Hpos | split; [exact Hinv |]].
  apply (proj1 (proj2 (proj2 (session_store_capacity (new_memory 3600 2) Hpos Hinv))
                  sample_calls 1 eq_refl ltac:(lia))).
Defined.

(** Counterexample to C3: with [max_items = 0] the trimming slice
    is [interactions[-0:]], the whole list, so the store grows past its
    capacity: one call already breaks the bound and three calls keep three
    interactions. *)
Lemma session_store_capacity_zero_counterexample :
  store_inv (new_memory 3600 0) /\
  ~ store_inv (add_interaction (new_memory 3600 0) "T1" "text" "a" "text") /\
  length (interactions (add_interactions (new_memory 3600 0) sample_calls)) = 3.
Proof.
  unfold store_inv. simpl. split; [lia | split; [lia | reflexivity]].
Qed.

(** ** [get_context] *)

Local Open Scope string_scope.

Lemma string_app_assoc (a b c : string) : (a ++ b) ++ c = a ++ (b ++ c).
Proof. induction a as [|x a IH]; simpl; [reflexivity | now rewrite IH]. Qed.

Lemma string_app_nil_r (a : string) : a ++ "" = a.
Proof. induction a as [|x a IH]; simpl; [reflexivity | now rewrite IH]. Qed.

Lemma fold_render (acc : string) (ts : list TaskMemory) :
  fold_left (fun ctx t => ctx ++ render_task t) ts acc =
  acc ++ String.concat "" (map render_task ts).
Proof.
  revert acc; induction ts as [|t ts IH]; intros acc; simpl.
  - now rewrite string_app_nil_r.
  - rewrite IH, string_app_assoc. f_equal.
    destruct ts; simpl; [now rewrite string_app_nil_r | reflexivity].
Qed.

(** C10: [get_context(0)] renders every stored task ([created_tasks[-0:]] is
    the whole list), and every result starts with the header line, also on
    an empty store. *)
Theorem get_context_zero_and_header (m : SessionMemory) :
  get_context m 0 = context_header ++ String.concat "" (map render_task (created_tasks m)) /\
  (forall limit, exists rest, get_context m limit = context_header ++ rest).
Proof.
  split.
  - unfold get_context. rewrite fold_render. reflexivity.
  - intros limit. unfold get_context. rewrite fold_render. eexists. reflexivity.
Qed.

(** ** [get_user_patterns] *)

Local Open Scope nat_scope.

Lemma dict_get_set d k v k' dflt :
  dict_get (dict_set d k v) k' dflt = if String.eqb k' k then v else dict_get d k' dflt.
Proof.
  induction d as [|[k0 v0] d IH]; simpl.
  - destruct (String.eqb k' k); reflexivity.
  - destruct (String.eqb_spec k k0) as [->|Hk]; simpl.
    + destruct (String.eqb k' k0); reflexivity.
    + rewrite IH. destruct (String.eqb_spec k' k0) as [->|Hk']; [|reflexivity].
      destruct (String.eqb_spec k0 k); [congruence | reflexivity].
Qed.



Lemma dict_get_nodup d k v dflt :
  NoDup (map fst d) -> In (k, v) d -> dict_get d k dflt = v.
Proof.
  induction d as [|[k0 v0] d IH]; simpl; intros Hnd Hin; [contradiction|].
  inversion Hnd as [|? ? Hnot Hnd']; subst.
  destruct Hin as [E|Hin].
  - injection E as -> ->. now rewrite String.eqb_refl.
  - destruct (String.eqb_spec k k0) as [->|Hk].
    + exfalso. apply Hnot. now apply (in_map fst) in Hin.
    + auto.
Qed.

Lemma dict_set_keys d k v k' :
  In k' (map fst (dict_set d k v)) <-> In k' (map fst d) \/ k' = k.
Proof.
  induction d as [|[k0 v0] d IH]; simpl.
  - intuition.
  - destruct (String.eqb_spec k k0) as [->|Hk]; simpl; rewrite ?IH; intuition.
Qed.

Lemma dict_set_nodup d k v : NoDup (map fst d) -> NoDup (map fst (dict_set d k v)).
Proof.
  induction d as [|[k0 v0] d IH]; simpl; intros Hnd.
  - constructor; [auto | constructor].
  - inversion Hnd as [|? ? Hnot Hnd']; subst.
    destruct (String.eqb_spec k k0) as [->|Hk]; simpl; [exact Hnd|].
    constructor; [|auto]. rewrite dict_set_keys. intuition.
Qed.

Lemma count_sources_fold ts d s :
  dict_get (fold_left (fun d t => dict_set d (source t) (dict_get d (source t) 0%Z + 1)) ts d) s 0%Z
  = (dict_get d s 0 + Z.of_nat (count_source s ts))%Z.
Proof.
  revert d; induction ts as [|t ts IH]; intros d; simpl.
  - unfold count_source; simpl. lia.
  - rewrite IH, dict_get_set. unfold count_source; simpl.
    rewrite String.eqb_sym.
    destruct (String.eqb_spec (source t) s) as [<-|Hs]; simpl; lia.
Qed.

Lemma count_sources_get ts s :
  dict_get (count_sources ts) s 0%Z = Z.of_nat (count_source s ts).
Proof. unfold count_sources. rewrite count_sources_fold. reflexivity. Qed.

Lemma count_sources_nodup ts : NoDup (map fst (count_sources ts)).
Proof.
  unfold count_sources.
  assert (H : forall d, NoDup (map fst d) -> NoDup (map fst
     (fold_left (fun d t => dict_set d (source t) (dict_get d (source t) 0%Z + 1)) ts d))).
  { induction ts as [|t ts IH]; intros d Hd; simpl; [exact Hd|].
    apply IH. now apply dict_set_nodup. }
  apply H. constructor.
Qed.



Lemma set_update_spec s xs x : In x (set_update s xs) <-> In x s \/ In x xs.
Proof.
  unfold set_update. revert s; induction xs as [|y xs IH]; intros s; simpl.
  - intuition.
  - rewrite IH. destruct (existsb (String.eqb y) s) eqn:E.
    + apply existsb_exists in E. destruct E as [z [Hz Ez]]. apply String.eqb_eq in Ez. subst z.
      intuition congruence.
    + rewrite in_app_iff. simpl. intuition.
Qed.


Lemma fold_left_Zadd l a : fold_left Z.add l a = (a + fold_right Z.add 0 l)%Z.
Proof. revert a; induction l as [|x l IH]; intros a; simpl; [lia | rewrite IH; lia]. Qed.

(** ** Python's [int / int] *)

Module FloatFacts.
Local Open Scope Z_scope.

Lemma pow_scale_le (A B p q p' q' : Z) :
  0 <= p -> 0 <= q -> 0 <= p' -> 0 <= q' -> p - q = p' - q' ->
  (B * 2 ^ p <= A * 2 ^ q <-> B * 2 ^ p' <= A * 2 ^ q').
Proof.
  intros. assert (Hc : p + q' = p' + q) by lia.
  assert (E1 : forall X u v, 0 <= u -> 0 <= v -> X * 2 ^ u * 2 ^ v = X * 2 ^ (u + v))
    by (intros; rewrite Z.pow_add_r by lia; ring).
  assert (P1 : 0 < 2 ^ q') by (apply Z.pow_pos_nonneg; lia).
  assert (P2 : 0 < 2 ^ q) by (apply Z.pow_pos_nonneg; lia).
  rewrite (Z.mul_le_mono_pos_r _ _ (2 ^ q') P1), E1, E1 by lia.
  rewrite (Z.mul_le_mono_pos_r (B * 2 ^ p') _ (2 ^ q) P2), E1, E1 by lia.
  rewrite Hc, (Z.add_comm q q'). reflexivity.
Qed.

Lemma pow_scale_lt (A B p q p' q' : Z) :
  0 <= p -> 0 <= q -> 0 <= p' -> 0 <= q' -> p - q = p' - q' ->
  (A * 2 ^ q < B * 2 ^ p <-> A * 2 ^ q' < B * 2 ^ p').
Proof.
  intros. rewrite !Z.lt_nge. rewrite (pow_scale_le A B p q p' q') by lia. reflexivity.
Qed.


Lemma flog2_div_spec (a b : Z) : 0 < a -> 0 < b ->
  b * 2 ^ Z.max (flog2_div a b) 0 <= a * 2 ^ Z.max (- flog2_div a b) 0 /\
  a * 2 ^ Z.max (- (flog2_div a b + 1)) 0 < b * 2 ^ Z.max (flog2_div a b + 1) 0.
Proof.
  intros Ha Hb.
  destruct (Z.log2_spec a Ha) as [La Ua]. destruct (Z.log2_spec b Hb) as [Lb Ub].
  pose proof (Z.log2_nonneg a). pose proof (Z.log2_nonneg b).
  set (la := Z.log2 a) in *. set (lb := Z.log2 b) in *.
  unfold flog2_div. fold la lb. set (k := la - lb).
  assert (Pw : forall x, 0 <= x -> 0 < 2 ^ x) by (intros; apply Z.pow_pos_nonneg; lia).
  assert (PA : forall u v, 0 <= u -> 0 <= v -> 2 ^ u * 2 ^ v = 2 ^ (u + v))
    by (intros; rewrite Z.pow_add_r; lia).
  destruct (b * 2 ^ Z.max k 0 <=? a * 2 ^ Z.max (- k) 0) eqn:C.
  - apply Z.leb_le in C. split; [exact C|].
    (* a * X < 2^(la+1) * X = 2^lb * Y <= b * Y *)
    apply Z.lt_le_trans with (2 ^ Z.succ la * 2 ^ Z.max (- (k + 1)) 0).
    + apply Z.mul_lt_mono_pos_r; [apply Pw; lia | exact Ua].
    + apply Z.le_trans with (2 ^ lb * 2 ^ Z.max (k + 1) 0).
      * rewrite !PA by lia. apply Z.eq_le_incl. f_equal. unfold k. lia.
      * apply Z.mul_le_mono_nonneg_r; [apply Z.lt_le_incl, Pw; lia | exact Lb].
  - apply Z.leb_gt in C. split.
    + apply Z.le_trans with (2 ^ Z.succ lb * 2 ^ Z.max (k - 1) 0).
      * apply Z.mul_le_mono_nonneg_r; [apply Z.lt_le_incl, Pw; lia | lia].
      * apply Z.le_trans with (2 ^ la * 2 ^ Z.max (- (k - 1)) 0).
        -- rewrite !PA by lia. apply Z.eq_le_incl. f_equal. unfold k. lia.
        -- apply Z.mul_le_mono_nonneg_r; [apply Z.lt_le_incl, Pw; lia | exact La].
    + replace (k - 1 + 1) with k by lia. exact C.
Qed.

Lemma pow2_pos (x : Z) : 0 <= x -> 0 < 2 ^ x.
Proof. intros; apply Z.pow_pos_nonneg; lia. Qed.

Lemma pow_mono_lt (A B t t' : Z) : t <= t' ->
  A * 2 ^ Z.max (- t) 0 < B * 2 ^ Z.max t 0 -> 0 <= A -> 0 <= B ->
  A * 2 ^ Z.max (- t') 0 < B * 2 ^ Z.max t' 0.
Proof.
  intros Ht H HA HB.
  apply (pow_scale_lt A B (Z.max t' 0) (Z.max (- t') 0) (Z.max t 0 + (t' - t)) (Z.max (- t) 0));
    try lia.
  rewrite Z.pow_add_r by lia.
  assert (1 <= 2 ^ (t' - t)) by (pose proof (pow2_pos (t' - t)); lia).
  pose proof (pow2_pos (Z.max t 0)). nia.
Qed.

Lemma pow_mono_le (A B t t' : Z) : t <= t' ->
  B * 2 ^ Z.max t' 0 <= A * 2 ^ Z.max (- t') 0 -> 0 <= A -> 0 <= B ->
  B * 2 ^ Z.max t 0 <= A * 2 ^ Z.max (- t) 0.
Proof.
  intros Ht H HA HB.
  apply (pow_scale_le A B (Z.max t' 0) (Z.max (- t') 0) (Z.max t 0 + (t' - t)) (Z.max (- t) 0))
    in H; try lia.
  rewrite Z.pow_add_r in H by lia.
  assert (1 <= 2 ^ (t' - t)) by (pose proof (pow2_pos (t' - t)); lia).
  pose proof (pow2_pos (Z.max t 0)). nia.
Qed.

Lemma pow_lt_exp (A B f t : Z) : 0 <= A -> 0 <= B ->
  B * 2 ^ Z.max f 0 <= A * 2 ^ Z.max (- f) 0 ->
  A * 2 ^ Z.max (- t) 0 < B * 2 ^ Z.max t 0 -> f < t.
Proof.
  intros HA HB H1 H2. destruct (Z_lt_le_dec f t) as [|Hle]; [assumption|].
  exfalso. pose proof (pow_mono_le A B t f Hle H1 HA HB). lia.
Qed.

Lemma round_mant_half (a b e : Z) : 0 < b * 2 ^ Z.max e 0 ->
  2 * Z.abs (round_mant a b e * (b * 2 ^ Z.max e 0) - a * 2 ^ Z.max (- e) 0)
    <= b * 2 ^ Z.max e 0 /\
  (a * 2 ^ Z.max (- e) 0) / (b * 2 ^ Z.max e 0) <= round_mant a b e <=
  (a * 2 ^ Z.max (- e) 0) / (b * 2 ^ Z.max e 0) + 1.
Proof.
  unfold round_mant. set (num := a * 2 ^ Z.max (- e) 0). set (den := b * 2 ^ Z.max e 0).
  intros Hd. pose proof (Z.div_mod num den ltac:(lia)) as Hdm.
  pose proof (Z.mod_pos_bound num den Hd) as Hr.
  set (q := num / den) in *. set (r := num mod den) in *.
  destruct ((den <? 2 * r) || ((2 * r =? den) && Z.odd q)) eqn:C.
  - apply orb_true_iff in C. destruct C as [C | C];
      [apply Z.ltb_lt in C | apply andb_true_iff in C; destruct C as [C _]; apply Z.eqb_eq in C];
      (split; [| lia]);
      replace ((q + 1) * den - num) with (den - r) by lia; rewrite Z.abs_eq by lia; lia.
  - apply orb_false_iff in C. destruct C as [C1 C2]. apply Z.ltb_ge in C1.
    split; [| lia].
    replace (q * den - num) with (- r) by lia. rewrite Z.abs_opp, Z.abs_eq by lia. lia.
Qed.

Section Rounding.
Variables A B : Z.
Hypothesis HA : 0 < A.
Hypothesis HB : 0 < B.

Let f := flog2_div A B.
Let e := round_exp A B.
Let X := 2 ^ Z.max e 0.
Let Y := 2 ^ Z.max (- e) 0.
Let m := round_mant A B e.

Lemma rnd_den_pos : 0 < B * X.
Proof. unfold X. pose proof (pow2_pos (Z.max e 0)). nia. Qed.


Lemma rnd_range : 0 <= m <= 2 ^ 53 /\ (e = -1074 \/ 2 ^ 52 <= m).
Proof.
  destruct (round_mant_half A B e rnd_den_pos) as [_ [Hlo Hhi]]. fold X Y m in Hlo, Hhi.
  destruct (flog2_div_spec A B HA HB) as [L1 L2]. fold f in L1, L2.
  pose proof rnd_den_pos as Hd.
  assert (HY : 0 < Y) by apply pow2_pos, Z.le_max_r.
  assert (He : f - 52 <= e /\ -1074 <= e) by (unfold e, round_exp; fold f; lia).
  (* A / B < 2 ^ (e + 53) *)
  assert (U : A * 2 ^ Z.max (- (e + 53)) 0 < B * 2 ^ Z.max (e + 53) 0)
    by (apply (pow_mono_lt A B (f + 1)); lia).
  apply (pow_scale_lt A B _ _ (Z.max e 0 + 53) (Z.max (- e) 0)) in U; try (clear; lia).
  rewrite Z.pow_add_r in U by lia. fold X Y in U.
  assert (Q53 : A * Y / (B * X) < 2 ^ 53).
  { apply Z.div_lt_upper_bound; [exact Hd|]. lia. }
  assert (Q0 : 0 <= A * Y / (B * X)) by (apply Z.div_pos; lia).
  split; [lia|].
  destruct (Z.max_spec (f - 52) (-1074)) as [[_ E] | [_ E]];
    [left; unfold e, round_exp; fold f; lia | right].
  assert (Ee : e = f - 52) by (unfold e, round_exp; fold f; lia).
  assert (L : B * 2 ^ (Z.max e 0 + 52) <= A * 2 ^ Z.max (- e) 0).
  { apply (pow_scale_le A B (Z.max f 0) (Z.max (- f) 0)); [clear - Ee; lia .. | exact L1]. }
  rewrite Z.pow_add_r in L by lia. fold X Y in L.
  assert (2 ^ 52 <= A * Y / (B * X)).
  { apply Z.div_le_lower_bound; [exact Hd|]. lia. }
  lia.
Qed.


Lemma rnd_no_overflow : A < 2 ^ 1023 * B -> m * X < 2 ^ 1024.
Proof.
  intros H. destruct rnd_range as [[Hm0 Hm] _].
  destruct (flog2_div_spec A B HA HB) as [L1 _]. fold f in L1.
  assert (U : A * 2 ^ Z.max (- 1023) 0 < B * 2 ^ Z.max 1023 0).
  { change (Z.max (- 1023) 0) with 0. change (Z.max 1023 0) with 1023.
    rewrite Z.pow_0_r. clear - H. lia. }
  pose proof (pow_lt_exp A B f 1023 ltac:(lia) ltac:(lia) L1 U) as Hf.
  assert (He : e <= 970) by (unfold e, round_exp; fold f; clear - Hf; lia).
  assert (HX : X <= 2 ^ 970).
  { unfold X. apply Z.pow_le_mono_r; clear - He; lia. }
  assert (HX0 : 0 < X) by (apply pow2_pos; clear; lia).
  assert (P : 2 ^ 53 * 2 ^ 970 < 2 ^ 1024) by (rewrite <- Z.pow_add_r by lia; apply Z.pow_lt_mono_r; lia).
  set (T := 2 ^ 970) in *. set (S := 2 ^ 53) in *. set (R := 2 ^ 1024) in *.
  clear - Hm0 Hm HX HX0 P.
  assert (m * X <= S * T) by (apply Z.mul_le_mono_nonneg; lia).
  lia.
Qed.

End Rounding.









Lemma int_true_div_overflow (a b : Z) (msg : string) : 0 < b -> int_true_div a b = Raise msg ->
  msg = "integer division result too large for a float"%string /\ 2 ^ 1023 * b <= Z.abs a.
Proof.
  intros Hb. unfold int_true_div.
  replace (b =? 0) with false by (symmetry; apply Z.eqb_neq; lia).
  destruct (a =? 0) eqn:Ea; [discriminate|]. apply Z.eqb_neq in Ea.
  rewrite (Z.abs_eq b) by lia.
  assert (HA : 0 < Z.abs a) by lia.
  pose proof (rnd_no_overflow (Z.abs a) b) as Hno; try specialize (Hno HA); try specialize (Hno Hb).
  destruct (2 ^ 1024 <=? _) eqn:C; [|discriminate].
  intros H. injection H as <-. split; [reflexivity|].
  apply Z.leb_le in C. destruct (Z_lt_le_dec (Z.abs a) (2 ^ 1023 * b)) as [Hl|Hl]; [|exact Hl].
  specialize (Hno Hl). lia.
Qed.

End FloatFacts.
Import FloatFacts.


(** The mean of the priorities [1; 2; 3] is the double [2.0]. *)
Example get_user_patterns_123 :
  match get_user_patterns
          (add_task_created (add_task_created (add_task_created (new_memory 3600 100)
             "T1" 1 "a" "text" 1 []) "T2" 2 "b" "text" 2 []) "T3" 3 "c" "email" 3 []) with
  | Ok (Some p) => (fval (average_priority p) == 2)%Q /\ total_tasks p = 3%Z /\
                   preferred_source p = Some "text"
  | _ => False
  end.
Proof. vm_compute. split; [reflexivity | split; reflexivity]. Qed.


(** ** The pipeline *)

Local Open Scope string_scope.

Lemma setdefault_dict d k v :
  exists d', py_setdefault (PDict d) k v = Ok (PDict d') /\
    forall k', assoc_get d' k' =
               match assoc_get d k' with Some x => Some x | None => if String.eqb k' k then Some v else None end.
Proof.
  unfold py_setdefault. destruct (assoc_get d k) as [x|] eqn:Hk.
  - exists d. split; [reflexivity|]. intros k'.
    destruct (assoc_get d k') eqn:Hk'; [reflexivity|].
    destruct (String.eqb_spec k' k) as [->|]; [congruence | reflexivity].
  - exists (d ++ [(k, v)])%list. split; [reflexivity|]. intros k'.
    induction d as [|[k0 v0] d IH]; cbn [assoc_get List.app] in *; [reflexivity|].
    destruct (String.eqb k' k0); [reflexivity|].
    destruct (String.eqb k k0); [discriminate|]. exact (IH Hk).
Qed.


Lemma process_input_eq (env : Env) input hint (o : Orchestrator) :
  process_input env input hint o =
  if initialized o || key_set env then
    let o1 := mkOrchestrator (memory o) true in
    match tracer env with
    | Some (Raise e, _) => (Raise e, o1)
    | _ =>
        let '(r, o2) := match process_body env input hint o1 with
                        | (Ok v, o') => (Ok v, o')
                        | (Raise e, o') => (Ok (Failure e hint), o')
                        end in
        match tracer env with
        | Some (_, Raise e) => (Raise e, o2)
        | _ => (r, o2)
        end
    end
  else (Raise "GEMINI_API_KEY not set", o).
Proof.
  destruct o as [mem init].
  unfold process_input, key_set, initialize, bind, gets, ret, raise, lift, modify,
         try_finally, try_except; simpl.
  destruct init; simpl;
  [| destruct (gemini_api_key env) as [[|c k]|]; simpl; try reflexivity];
  destruct (tracer env) as [[[u|e] [u'|e']]|]; simpl; try reflexivity;
  destruct (process_body env input hint {| memory := mem; initialized := true |}) as [[v|e0] o'];
  reflexivity.
Qed.

Lemma init_ok_flag (env : Env) (o : Orchestrator) :
  init_ok env o -> initialized o || key_set env = true.
Proof.
  intros [-> | [k [Hk Hne]]]; [reflexivity|].
  apply orb_true_iff; right. unfold key_set. rewrite Hk. destruct k; [congruence | reflexivity].
Qed.

Lemma process_body_memory (env : Env) input hint (o : Orchestrator) :
  memory (snd (process_body env input hint o)) =
  match detect_and_process env input hint with
  | Ok (n, ch) => add_interaction (memory o) (utcnow env) hint n ch
  | Raise _ => memory o
  end.
Proof.
  unfold process_body, enrich_task, bind, gets, ret, lift, modify; simpl.
  destruct (detect_and_process env input hint) as [[n ch]|e]; simpl; [|reflexivity].
  repeat (simpl; match goal with
                 | |- context [match ?x with Ok _ => _ | Raise _ => _ end] => destruct x
                 | |- context [if ?b then _ else _] => destruct b
                 end); reflexivity.
Qed.

Lemma process_input_memory (env : Env) input hint (o : Orchestrator) :
  memory (snd (process_input env input hint o)) = memory o \/
  memory (snd (process_input env input hint o)) =
    memory (snd (process_body env input hint (mkOrchestrator (memory o) true))).
Proof.
  rewrite process_input_eq.
  destruct (initialized o || key_set env); [|left; reflexivity]. cbv zeta.
  destruct (tracer env) as [[[u|e] [u'|e']]|]; simpl; try (left; reflexivity);
  destruct (process_body env input hint _) as [[v|e0] o']; simpl; right; reflexivity.
Qed.

Lemma detect_and_process_resolved (env : Env) input hint n ch :
  detect_and_process env input hint = Ok (n, ch) ->
  ch = resolve_type hint (detect_input_type input).
Proof.
  unfold detect_and_process.
  set (r := resolve_type hint (detect_input_type input)).
  assert (Hr : r = "email" \/ r = "voice" \/ r = "text").
  { unfold r. destruct (resolve_type_spec hint (detect_input_type input))
      as [[[-> | ->] ->] | [_ [_ ->]]]; auto using detect_input_type_cases. }
  destruct Hr as [E | [E | E]]; rewrite E; simpl;
    unfold process_email, process_voice, process_text.
  - destruct (email_actionable env input); intros H; inversion H; reflexivity.
  - destruct (transcribe env input); intros H; inversion H; reflexivity.
  - intros H; inversion H; reflexivity.
Qed.

(** C4: when the [try] block raises [msg] (a collaborator of steps 2-6
    fails) and the tracing span closes normally (tracing off; with tracing
    on, [trace_span.end()] itself raises, see the counterexample below),
    [process_input]
    returns [{success: false, error: msg, source:
    input_type}] with the caller's hint, the memory keeps what step 3 wrote
    (the new interaction, if normalisation completed) and no task is added. *)
Theorem process_input_error_envelope (env : Env) input hint (o : Orchestrator) msg
  (Hinit : init_ok env o) (Hspan : span_ok env)
  (Hfail : fst (process_body env input hint (mkOrchestrator (memory o) true)) = Raise msg) :
  fst (process_input env input hint o) = Ok (Failure msg hint) /\
  memory (snd (process_input env input hint o)) =
    match detect_and_process env input hint with
    | Ok (n, ch) => add_interaction (memory o) (utcnow env) hint n ch
    | Raise _ => memory o
    end /\
  created_tasks (memory (snd (process_input env input hint o))) = created_tasks (memory o).
Proof.
  pose proof (init_ok_flag env o Hinit) as Hb.
  pose proof (process_body_memory env input hint (mkOrchestrator (memory o) true)) as Hm.
  rewrite process_input_eq, Hb. cbv zeta. unfold span_ok in Hspan.
  destruct (process_body env input hint (mkOrchestrator (memory o) true)) as [r o'] eqn:Ebody.
  simpl in Hfail, Hm. subst r.
  destruct (tracer env) as [[[u|e] [u'|e']]|]; try contradiction; simpl;
    (split; [reflexivity | split; [exact Hm |]]);
    rewrite Hm; destruct (detect_and_process env input hint) as [[n ch]|e0]; reflexivity.
Qed.

(** No call of [process_input] changes [created_tasks]: the pipeline never
    calls [add_task_created]. *)
Theorem process_input_never_adds_task (env : Env) input hint (o : Orchestrator) :
  created_tasks (memory (snd (process_input env input hint o))) = created_tasks (memory o).
Proof.
  destruct (process_input_memory env input hint o) as [-> | ->]; [reflexivity|].
  rewrite process_body_memory.
  destruct (detect_and_process env input hint) as [[n ch]|e]; reflexivity.
Qed.


Lemma assoc_get_setdefault_chain d n :
  exists d5 t,
    (match py_setdefault (PDict d) "title" (PStr (take 50 n)) with
     | Raise e => Raise e
     | Ok task =>
         match py_setdefault task "description" (PStr n) with
         | Raise e => Raise e
         | Ok task =>
             match py_setdefault task "priority" (PInt 1) with
             | Raise e => Raise e
             | Ok task =>
                 match py_setdefault task "due_date" PNone with
                 | Raise e => Raise e
                 | Ok task => py_setdefault task "labels" (PList [])
                 end
             end
         end
     end) = Ok (PDict d5) /\ assoc_get d5 "title" = Some t.
Proof.
  destruct (setdefault_dict d "title" (PStr (take 50 n))) as [d1 [E1 H1]]. rewrite E1.
  destruct (setdefault_dict d1 "description" (PStr n)) as [d2 [E2 H2]]. rewrite E2.
  destruct (setdefault_dict d2 "priority" (PInt 1)) as [d3 [E3 H3]]. rewrite E3.
  destruct (setdefault_dict d3 "due_date" PNone) as [d4 [E4 H4]]. rewrite E4.
  destruct (setdefault_dict d4 "labels" (PList [])) as [d5 [E5 H5]]. rewrite E5.
  exists d5. rewrite H5, H4, H3, H2, H1.
  destruct (assoc_get d "title"); simpl; eexists; split; reflexivity.
Qed.

(** The parser's result always has a "title", so the enricher's
    [task['title']] does not raise. *)
Lemma extract_task_title (env : Env) n task :
  extract_task_structure env n = Ok task -> exists t, py_getitem task "title" = Ok t.
Proof.
  unfold extract_task_structure.
  destruct (gemini_extract env n) as [t0|e]; [|discriminate].
  destruct t0 as [| | | | |d]; try (simpl; intros H; discriminate).
  destruct (assoc_get_setdefault_chain d n) as [d5 [t [E Ht]]]. rewrite E.
  intros H. injection H as <-. exists t. simpl. rewrite Ht. reflexivity.
Qed.

Lemma process_body_success (env : Env) input hint (o : Orchestrator) tid ti ch pr lb :
  fst (process_body env input hint o) = Ok (Success tid ti ch pr lb) <->
  success_built_from env input hint (memory o) tid ti ch pr lb.
Proof.
  split.
  - unfold process_body, enrich_task, bind, gets, ret, lift, modify; simpl.
    destruct (detect_and_process env input hint) as [[n c]|e] eqn:Ed; simpl; [|discriminate].
    pose proof (detect_and_process_resolved env input hint n c Ed) as Hres.
    destruct (extract_task_structure env n) as [task|e] eqn:Ex; simpl; [|discriminate].
    destruct (py_getitem task "title") as [t0|e] eqn:Et0; simpl; [|discriminate].
    destruct (get_user_patterns _) as [pats|e] eqn:Epats; simpl; [|discriminate].
    destruct (gemini_enrich env task _ _) as [en|e] eqn:Een; simpl; [|discriminate].
    destruct (py_get en "priority" PNone) as [p0|e] eqn:Ep0; simpl; [|discriminate].
    destruct (create_task env en c) as [cr|e] eqn:Ecr; simpl; [|discriminate].
    destruct (truthy cr) eqn:Etr; simpl;
    [destruct (py_get cr "id" PNone) as [i|e] eqn:Ei; simpl; [|discriminate] |];
    (destruct (py_get en "title" PNone) as [t|e] eqn:Et; simpl; [|discriminate]);
    (destruct (py_get en "priority" PNone) as [p|e] eqn:Ep; simpl; [|discriminate]);
    (destruct (py_get en "labels" (PList [])) as [l|e] eqn:El; simpl; [|discriminate]);
    intros H; injection H as <- <- <- <- <-;
    exists n, task, pats, en, cr; repeat split; auto.
  - intros (n & task & pats & en & cr & Hd & Hch & Hx & [Hp He] & Hc & Ht & Hpr & Hl & Hid).
    destruct (extract_task_title env n task Hx) as [t0 Ht0].
    unfold process_body, enrich_task, bind, gets, ret, lift, modify; simpl.
    rewrite Hd. simpl. rewrite Hx. simpl. rewrite Ht0. simpl. rewrite Hp. simpl.
    rewrite He. simpl. rewrite Hpr. simpl. rewrite Hc. simpl.
    destruct Hid as [[Htr ->] | [Htr Hi]]; rewrite Htr; simpl; [| rewrite Hi; simpl];
      rewrite Ht; simpl; rewrite Hpr; simpl; rewrite Hl; simpl; reflexivity.
Qed.

(** C8 (corrected): when the lazy initialisation passes and the tracing
    span opens and closes without raising, [process_input] returns
    [{success: true, task_id, title, source, priority, labels}] exactly when
    every step succeeds, and then [source] is the resolved channel,
    [title], [priority] and [labels] are read from the enriched task
    ([labels] defaulting to [[]]), and [task_id = created_task.get("id")]
    when the creation result is truthy (so [None] for a non-empty dict
    without "id"), [-1] when it is falsy ([None] or an empty dict). *)
Theorem process_input_success_iff (env : Env) input hint (o : Orchestrator)
  tid ti ch pr lb (Hinit : init_ok env o) (Hspan : span_ok env) :
  fst (process_input env input hint o) = Ok (Success tid ti ch pr lb) <->
  success_built_from env input hint (memory o) tid ti ch pr lb.
Proof.
  pose proof (init_ok_flag env o Hinit) as Hb.
  pose proof (process_body_success env input hint (mkOrchestrator (memory o) true)
                tid ti ch pr lb) as Hbody.
  cbn [memory] in Hbody. rewrite <- Hbody.
  rewrite process_input_eq, Hb. cbv zeta. unfold span_ok in Hspan.
  destruct (process_body env input hint (mkOrchestrator (memory o) true)) as [r o'].
  destruct (tracer env) as [[[u|e] [u'|e']]|]; try contradiction;
    destruct r as [v|msg]; simpl; (reflexivity || (split; discriminate)).
Qed.

(** C9: a run that gets through classification and normalisation records
    exactly one interaction, with [type] the caller's hint and [channel] the
    resolved channel, appended last before trimming. *)
Theorem process_input_records_interaction (env : Env) input hint (o : Orchestrator) norm ch
  (Hinit : init_ok env o) (Hstart : span_start_ok env)
  (Hdet : detect_and_process env input hint = Ok (norm, ch)) :
  interactions (memory (snd (process_input env input hint o))) =
    keep_recent (max_items (memory o))
      (interactions (memory o) ++ [mkInteraction hint norm (utcnow env) ch false])%list /\
  created_tasks (memory (snd (process_input env input hint o))) = created_tasks (memory o) /\
  ch = resolve_type hint (detect_input_type input).
Proof.
  pose proof (init_ok_flag env o Hinit) as Hb.
  pose proof (process_body_memory env input hint (mkOrchestrator (memory o) true)) as Hm.
  rewrite Hdet in Hm.
  rewrite process_input_eq, Hb. cbv zeta. unfold span_start_ok in Hstart.
  destruct (process_body env input hint (mkOrchestrator (memory o) true)) as [r o'] eqn:Eb.
  simpl in Hm.
  split; [|split]; [| | exact (detect_and_process_resolved env input hint norm ch Hdet)];
  destruct (tracer env) as [[[u|e] [u'|e']]|]; try contradiction;
  destruct r as [v|msg]; simpl; rewrite Hm; reflexivity.
Qed.

(** ** Concrete runs *)

Lemma scenario_init_ok (create : pyval -> string -> res pyval) :
  init_ok (scenario_env (Some "key") create) fresh.
Proof. right. exists "key". split; [reflexivity | discriminate]. Defined.

(** Witness of C4: scenario C, the Vikunja client raises. *)
Lemma process_input_error_envelope_witness :
  init_ok env_C fresh /\ span_ok env_C /\
  fst (process_body env_C input_A "text" (mkOrchestrator (memory fresh) true))
    = Raise "Vikunja error: unauthorized" /\
  fst (process_input env_C input_A "text" fresh)
    = Ok (Failure "Vikunja error: unauthorized" "text") /\
  memory (snd (process_input env_C input_A "text" fresh)) =
    match detect_and_process env_C input_A "text" with
    | Ok (n, ch) => add_interaction (memory fresh) (utcnow env_C) "text" n ch
    | Raise _ => memory fresh
    end /\
  created_tasks (memory (snd (process_input env_C input_A "text" fresh))) = created_tasks (memory fresh).
Proof.
  assert (H1 : init_ok env_C fresh) by apply scenario_init_ok.
  assert (H2 : span_ok env_C) by exact I.
  assert (H3 : fst (process_body env_C input_A "text" (mkOrchestrator (memory fresh) true))
               = Raise "Vikunja error: unauthorized") by (vm_compute; reflexivity).
  split; [exact H1 | split; [exact H2 | split; [exact H3 |]]].
  exact (process_input_error_envelope env_C input_A "text" fresh _ H1 H2 H3).
Defined.

(** Counterexample to C4: with tracing on, as by default, the Vikunja
    client raises and the [finally] clause's [trace_span.end()] raises
    [AttributeError] (the context manager has no [end]); that exception
    reaches the caller instead of the failure envelope. *)
Lemma process_input_error_span_counterexample :
  fst (process_body env_C_span input_A "text" (mkOrchestrator (memory fresh) true))
    = Raise "Vikunja error: unauthorized" /\
  fst (process_input env_C_span input_A "text" fresh) = Raise span_end_error.
Proof. split; vm_compute; reflexivity. Qed.

(** C5, the code as it stands: no run adds a [TaskMemory], and in
    scenario A the task is created (id 42) while [created_tasks] stays empty. *)
Theorem process_input_no_task_memory :
  (forall env input hint o,
     created_tasks (memory (snd (process_input env input hint o))) = created_tasks (memory o)) /\
  fst (process_input env_A input_A "text" fresh) =
    Ok (Success (PInt 42) (PStr "Fix login bug") "text" (PInt 3) (PList [PStr "bug"])) /\
  created_tasks (memory (snd (process_input env_A input_A "text" fresh))) = [].
Proof.
  split; [exact process_input_never_adds_task|].
  split; vm_compute; reflexivity.
Qed.



(** Counterexample to C8 as stated: Vikunja answers with a dict that has no
    "id"; [task_id] is [None], not [-1]. *)
Lemma process_input_task_id_not_minus_one :
  fst (process_input env_noid input_A "text" fresh) =
    Ok (Success PNone (PStr "Fix login bug") "text" (PInt 3) (PList [PStr "bug"])) /\
  PNone <> PInt (-1).
Proof. split; [vm_compute; reflexivity | discriminate]. Qed.

(** Witness of C8: scenario A. *)
Lemma process_input_success_iff_witness :
  init_ok env_A fresh /\ span_ok env_A /\
  fst (process_input env_A input_A "text" fresh) =
    Ok (Success (PInt 42) (PStr "Fix login bug") "text" (PInt 3) (PList [PStr "bug"])) /\
  success_built_from env_A input_A "text" (memory fresh)
    (PInt 42) (PStr "Fix login bug") "text" (PInt 3) (PList [PStr "bug"]).
Proof.
  assert (H1 : init_ok env_A fresh) by apply scenario_init_ok.
  assert (H2 : span_ok env_A) by exact I.
  assert (H : fst (process_input env_A input_A "text" fresh) =
    Ok (Success (PInt 42) (PStr "Fix login bug") "text" (PInt 3) (PList [PStr "bug"])))
    by (vm_compute; reflexivity).
  split; [exact H1 | split; [exact H2 | split; [exact H |]]].
  exact (proj1 (process_input_success_iff env_A input_A "text" fresh _ _ _ _ _ H1 H2) H).
Defined.

(** Witness of C9: scenario B, an email given with hint "text" is recorded
    with [type = "text"] and [channel = "email"]. *)
Lemma process_input_records_interaction_witness :
  init_ok env_A fresh /\ span_start_ok env_A /\
  detect_and_process env_A input_B "text" = Ok ("X. body text", "email") /\
  interactions (memory (snd (process_input env_A input_B "text" fresh))) =
    keep_recent (max_items (memory fresh))
      (interactions (memory fresh) ++
         [mkInteraction "text" "X. body text" (utcnow env_A) "email" false])%list /\
  created_tasks (memory (snd (process_input env_A input_B "text" fresh))) =
    created_tasks (memory fresh) /\
  "email" = resolve_type "text" (detect_input_type input_B).
Proof.
  assert (H1 : init_ok env_A fresh) by apply scenario_init_ok.
  assert (H2 : span_start_ok env_A) by exact I.
  assert (H3 : detect_and_process env_A input_B "text" = Ok ("X. body text", "email"))
    by (vm_compute; reflexivity).
  split; [exact H1 | split; [exact H2 | split; [exact H3 |]]].
  exact (process_input_records_interaction env_A input_B "text" fresh _ _ H1 H2 H3).
Defined.

(** * Further properties of the code *)

Local Open Scope string_scope.

(** ** [SessionMemory.get_context] for non-zero limits *)

(** X1: for a positive [limit], [get_context(limit)] renders the last
    [limit] stored tasks (all of them when fewer are stored), oldest first,
    after the header. *)
Theorem get_context_last_tasks (m : SessionMemory) (limit : Z) (Hpos : (0 < limit)%Z) :
  get_context m limit =
  context_header ++ String.concat "" (map render_task (lastn (Z.to_nat limit) (created_tasks m))).
Proof.
  unfold get_context, slice_from, lastn. rewrite fold_render.
  replace (- limit <? 0)%Z with true by (symmetry; apply Z.ltb_lt; lia).
  do 4 f_equal. lia.
Qed.

Lemma get_context_last_tasks_witness :
  (0 < 2)%Z /\
  get_context memory_3 2 =
  context_header ++ String.concat "" (map render_task (lastn 2 (created_tasks memory_3))).
Proof. split; [lia | apply (get_context_last_tasks memory_3 2); lia]. Defined.

(** X2: for a negative [limit = -k], [created_tasks[-limit:]] is
    [created_tasks[k:]]: the context skips the [k] oldest tasks and renders
    all the others. *)
Theorem get_context_negative_limit (m : SessionMemory) (k : Z) (Hk : (0 < k)%Z) :
  get_context m (- k) =
  context_header ++ String.concat "" (map render_task (skipn (Z.to_nat k) (created_tasks m))).
Proof.
  unfold get_context, slice_from. rewrite fold_render, Z.opp_involutive.
  replace (k <? 0)%Z with false by (symmetry; apply Z.ltb_ge; lia).
  reflexivity.
Qed.

Lemma get_context_negative_limit_witness :
  (0 < 1)%Z /\
  get_context memory_3 (-1) =
  context_header ++ String.concat "" (map render_task (skipn 1 (created_tasks memory_3))).
Proof. split; [lia | apply (get_context_negative_limit memory_3 1); lia]. Defined.

(** ** [get_user_patterns]: labels and ties *)

Lemma nodup_snoc {A} (s : list A) (x : A) : NoDup s -> ~ In x s -> NoDup (s ++ [x])%list.
Proof.
  induction s as [|y s IH]; simpl; intros Hs Hx; [constructor; [auto | constructor]|].
  inversion Hs as [|? ? Hy Hs']; subst. constructor.
  - rewrite in_app_iff. simpl. intuition.
  - apply IH; auto.
Qed.

Lemma set_update_nodup s xs : NoDup s -> NoDup (set_update s xs).
Proof.
  unfold set_update. revert s; induction xs as [|x xs IH]; intros s Hs; simpl; [exact Hs|].
  apply IH. destruct (existsb (String.eqb x) s) eqn:E; [exact Hs|].
  apply nodup_snoc; [exact Hs|].
  intros Hin. assert (H : existsb (String.eqb x) s = true)
    by (apply existsb_exists; exists x; split; [exact Hin | apply String.eqb_refl]).
  congruence.
Qed.

(** X3: [common_labels] lists every label once. *)
Theorem get_user_patterns_labels_nodup (m : SessionMemory) (p : UserPatterns)
  (H : get_user_patterns m = Ok (Some p)) : NoDup (common_labels p).
Proof.
  unfold get_user_patterns in H. destruct (created_tasks m) as [|t ts]; [discriminate|].
  destruct (int_true_div _ _); [|discriminate].
  injection H as <-. simpl.
  assert (G : forall l acc, NoDup acc ->
                NoDup (fold_left (fun s t => set_update s (labels t)) l acc)).
  { induction l as [|u l IH]; intros acc Hacc; simpl; [exact Hacc|].
    apply IH, set_update_nodup, Hacc. }
  apply G, set_update_nodup. constructor.
Qed.

Lemma get_user_patterns_labels_nodup_witness :
  exists p, get_user_patterns memory_3 = Ok (Some p) /\ NoDup (common_labels p).
Proof.
  eexists. split; [reflexivity|].
  apply (get_user_patterns_labels_nodup memory_3). reflexivity.
Defined.

Lemma dict_set_fst d k v :
  map fst (dict_set d k v) =
  if existsb (String.eqb k) (map fst d) then map fst d else (map fst d ++ [k])%list.
Proof.
  induction d as [|[k0 v0] d IH]; simpl; [reflexivity|].
  destruct (String.eqb k k0); simpl; [reflexivity|].
  rewrite IH. destruct (existsb (String.eqb k) (map fst d)); reflexivity.
Qed.

(** The sources dict lists its keys in the order of first appearance. *)
Lemma count_sources_keys ts : map fst (count_sources ts) = set_update [] (map source ts).
Proof.
  unfold count_sources, set_update.
  change (@nil string) with (map fst (@nil (string * Z))) at 2.
  generalize (@nil (string * Z)) as d.
  induction ts as [|t ts IH]; intros d; simpl; [reflexivity|].
  rewrite IH, dict_set_fst. reflexivity.
Qed.

Lemma set_update_before l k k' pre post :
  set_update [] l = (pre ++ k :: post)%list -> ~ In k' pre ->
  exists l1 l2, l = (l1 ++ k :: l2)%list /\ ~ In k' l1.
Proof.
  revert pre post. induction l as [|x l IH] using rev_ind; intros pre post E Hk'.
  - destruct pre; discriminate.
  - unfold set_update in E. rewrite fold_left_app in E. simpl in E. fold (set_update [] l) in E.
    destruct (existsb (String.eqb x) (set_update [] l)) eqn:Ex.
    + destruct (IH pre post E Hk') as [l1 [l2 [-> Hn]]].
      exists l1, (l2 ++ [x])%list. split; [now rewrite <- app_assoc | exact Hn].
    + destruct post as [|z post'] using rev_ind.
      * apply app_inj_tail in E. destruct E as [E1 <-].
        exists l, []. split; [reflexivity|].
        intros Hin. apply Hk'. rewrite <- E1. apply set_update_spec. now right.
      * clear IHpost'.
        rewrite app_comm_cons, app_assoc in E. apply app_inj_tail in E.
        destruct E as [E1 _].
        destruct (IH pre post' E1 Hk') as [l1 [l2 [-> Hn]]].
        exists l1, (l2 ++ [x])%list. split; [now rewrite <- app_assoc | exact Hn].
Qed.

Lemma argmax_fold_first (d : list (string * Z)) (best : string * Z) (pre0 mid : list (string * Z)) :
  (forall x, In x pre0 -> (snd x < snd best)%Z) ->
  (forall x, In x mid -> (snd x <= snd best)%Z) ->
  let r := fold_left (fun best kv => if (snd kv >? snd best)%Z then kv else best) d best in
  exists pre post, (pre0 ++ best :: mid ++ d = pre ++ r :: post)%list /\
                   forall x, In x pre -> (snd x < snd r)%Z.
Proof.
  revert best pre0 mid; induction d as [|y d IH]; intros best pre0 mid Hpre Hmid; simpl.
  - exists pre0, (mid ++ [])%list. split; [reflexivity | exact Hpre].
  - destruct (snd y >? snd best)%Z eqn:E.
    + apply Z.gtb_lt in E.
      destruct (IH y (pre0 ++ best :: mid)%list [] ) as [pre [post [Eq Hlt]]].
      * intros x Hx. rewrite in_app_iff in Hx. simpl in Hx.
        destruct Hx as [Hx | [<- | Hx]]; [specialize (Hpre x Hx) | | specialize (Hmid x Hx)]; lia.
      * intros x [].
      * exists pre, post. split; [|exact Hlt]. rewrite <- Eq, <- app_assoc. reflexivity.
    + rewrite Z.gtb_ltb, Z.ltb_ge in E.
      destruct (IH best pre0 (mid ++ [y])%list Hpre) as [pre [post [Eq Hlt]]].
      * intros x Hx. rewrite in_app_iff in Hx. destruct Hx as [Hx | [<- | []]]; auto.
      * exists pre, post. split; [|exact Hlt]. rewrite <- Eq, <- app_assoc. reflexivity.
Qed.

(** [max(d, key=d.get)] is the first key whose value no earlier key reaches. *)
Lemma dict_argmax_first (d : list (string * Z)) (k : string) :
  dict_argmax d = Some k ->
  exists pre v post, d = (pre ++ (k, v) :: post)%list /\ forall x, In x pre -> (snd x < v)%Z.
Proof.
  destruct d as [|[k0 v0] d]; simpl; [discriminate|]. intros E.
  destruct (argmax_fold_first d (k0, v0) [] [] ltac:(intros x []) ltac:(intros x []))
    as [pre [post [Eq Hlt]]].
  set (r := fold_left _ d (k0, v0)) in *. injection E as <-.
  exists pre, (snd r), post. destruct r as [rk rv]. split; [exact Eq | exact Hlt].
Qed.

(** X4: ties for [preferred_source] go to the source seen first: every
    source with as many stored tasks as the preferred one first appears
    after the preferred one's first task. *)
Theorem get_user_patterns_tie_first (m : SessionMemory) (p : UserPatterns) (s s' : string)
  (H : get_user_patterns m = Ok (Some p)) (Hs : preferred_source p = Some s)
  (Heq : count_source s' (created_tasks m) = count_source s (created_tasks m)) :
  exists l1 l2, map source (created_tasks m) = (l1 ++ s :: l2)%list /\ ~ In s' l1.
Proof.
  unfold get_user_patterns in H.
  destruct (created_tasks m) as [|t0 ts0] eqn:Ets; [discriminate|].
  set (ts := t0 :: ts0) in *. destruct (int_true_div _ _); [|discriminate].
  injection H as <-. simpl in Hs.
  assert (Ha : dict_argmax (count_sources ts) = Some s)
    by (destruct (count_sources ts); [discriminate | exact Hs]).
  destruct (dict_argmax_first _ _ Ha) as [pre [v [post [Ed Hlt]]]].
  pose proof (count_sources_nodup ts) as Hnd.
  assert (Hv : v = Z.of_nat (count_source s ts)).
  { rewrite <- count_sources_get. symmetry. apply dict_get_nodup; [exact Hnd|].
    rewrite Ed. apply in_or_app. right. now left. }
  apply (set_update_before _ s s' (map fst pre) (map fst post)).
  - rewrite <- count_sources_keys, Ed, map_app. reflexivity.
  - intros Hin. apply in_map_iff in Hin. destruct Hin as [[k w] [Ek Hkw]]. simpl in Ek. subst k.
    assert (Hw : w = Z.of_nat (count_source s' ts)).
    { rewrite <- count_sources_get. symmetry. apply dict_get_nodup; [exact Hnd|].
      rewrite Ed. apply in_or_app. now left. }
    specialize (Hlt (s', w) Hkw). simpl in Hlt. rewrite Hw, Hv, Heq in Hlt. lia.
Qed.

Lemma get_user_patterns_tie_first_witness :
  exists p, get_user_patterns memory_tie = Ok (Some p) /\ preferred_source p = Some "text" /\
  count_source "email" (created_tasks memory_tie) = count_source "text" (created_tasks memory_tie) /\
  exists l1 l2, map source (created_tasks memory_tie) = (l1 ++ "text" :: l2)%list /\ ~ In "email" l1.
Proof.
  eexists. split; [reflexivity|]. split; [reflexivity|]. split; [reflexivity|].
  eapply (get_user_patterns_tie_first memory_tie _ "text" "email"); reflexivity.
Defined.

(** ** The orchestrator's state across calls *)

Lemma forall_skipn {A} (P : A -> Prop) n (l : list A) : Forall P l -> Forall P (skipn n l).
Proof.
  revert l; induction n as [|n IH]; intros l Hl; [exact Hl|].
  destruct l as [|x l]; simpl; [constructor|]. inversion Hl; auto.
Qed.

Lemma forall_keep_recent {A} (P : A -> Prop) mx (l : list A) :
  Forall P l -> Forall P (keep_recent mx l).
Proof.
  intros Hl. unfold keep_recent, slice_from.
  destruct (_ >? _)%Z; [destruct (_ <? _)%Z|]; auto using forall_skipn.
Qed.

(** X5: no code path records an interaction with [task_created = True]: if
    every stored interaction has the flag off before [process_input], so
    does every interaction after it. *)
Theorem process_input_interactions_untagged (env : Env) input hint (o : Orchestrator)
  (H : Forall (fun i => task_created i = false) (interactions (memory o))) :
  Forall (fun i => task_created i = false)
    (interactions (memory (snd (process_input env input hint o)))).
Proof.
  destruct (process_input_memory env input hint o) as [E|E]; rewrite E; [exact H|].
  rewrite process_body_memory. simpl.
  destruct (detect_and_process env input hint) as [[n ch]|e]; [|exact H].
  simpl. apply forall_keep_recent, Forall_app. split; [exact H|].
  constructor; [reflexivity | constructor].
Qed.

Lemma process_input_interactions_untagged_witness :
  Forall (fun i => task_created i = false) (interactions (memory fresh)) /\
  Forall (fun i => task_created i = false)
    (interactions (memory (snd (process_input env_A input_A "text" fresh)))).
Proof.
  assert (H : Forall (fun i => task_created i = false) (interactions (memory fresh)))
    by constructor.
  split; [exact H | exact (process_input_interactions_untagged env_A input_A "text" fresh H)].
Defined.

(** ** String lemmas for the tools *)

Module StrFacts.
Import PyText.

Lemma rev_str_acc s acc : rev_str s acc = srev s ++ acc.
Proof.
  unfold srev. revert acc; induction s as [|c s IH]; intros acc; simpl; [reflexivity|].
  rewrite (IH (String c acc)), (IH (String c EmptyString)), string_app_assoc. reflexivity.
Qed.

Lemma srev_cons c a : srev (String c a) = srev a ++ String c EmptyString.
Proof. unfold srev at 1. simpl. apply rev_str_acc. Qed.

Lemma rev_app a b : srev (a ++ b) = srev b ++ srev a.
Proof.
  induction a as [|c a IH]; simpl.
  - now rewrite string_app_nil_r.
  - rewrite !srev_cons, IH. apply string_app_assoc.
Qed.

Lemma rev_involutive s : srev (srev s) = s.
Proof.
  induction s as [|c s IH]; [reflexivity|].
  unfold srev at 2. simpl. rewrite rev_str_acc, rev_app, IH. reflexivity.
Qed.

Lemma all_space_app a b : all_space (a ++ b) = all_space a && all_space b.
Proof. induction a as [|c a IH]; simpl; [reflexivity | rewrite IH; apply andb_assoc]. Qed.

Lemma all_space_rev s : all_space (srev s) = all_space s.
Proof.
  induction s as [|c s IH]; [reflexivity|].
  unfold srev. simpl. rewrite rev_str_acc, all_space_app. fold (srev s). rewrite IH. simpl.
  rewrite andb_true_r. apply andb_comm.
Qed.

Lemma lstrip_space_app w s : all_space w = true -> lstrip (w ++ s) = lstrip s.
Proof.
  induction w as [|c w IH]; simpl; [reflexivity|].
  intros H. apply andb_true_iff in H. destruct H as [-> H]. auto.
Qed.

Lemma lstrip_app s b :
  lstrip (s ++ b) = if String.eqb (lstrip s) "" then lstrip b else lstrip s ++ b.
Proof.
  induction s as [|c s IH]; simpl; [reflexivity|].
  destruct (is_space c); [exact IH | reflexivity].
Qed.

Lemma lstrip_all_space s : all_space s = true -> lstrip s = "".
Proof.
  intros H. rewrite <- (string_app_nil_r s), lstrip_space_app by exact H. reflexivity.
Qed.

Lemma lstrip_empty_all_space s : lstrip s = "" -> all_space s = true.
Proof.
  induction s as [|c s IH]; simpl; [reflexivity|].
  destruct (is_space c); simpl; [exact IH | discriminate].
Qed.

Lemma lstrip_idem s : lstrip (lstrip s) = lstrip s.
Proof. induction s as [|c s IH]; simpl; [reflexivity|]. destruct (is_space c) eqn:E; simpl; rewrite ?E; auto. Qed.

Lemma strip_eq s : strip s = srev (lstrip (srev (lstrip s))).
Proof. reflexivity. Qed.

(** Whitespace around a string does not change its [strip()]. *)
Lemma strip_pad a s b : all_space a = true -> all_space b = true -> strip (a ++ s ++ b) = strip s.
Proof.
  intros Ha Hb. rewrite !strip_eq, lstrip_space_app by exact Ha.
  rewrite lstrip_app. destruct (String.eqb_spec (lstrip s) "") as [E|E].
  - rewrite E. simpl. rewrite (lstrip_all_space b Hb). reflexivity.
  - rewrite rev_app, lstrip_space_app by (now rewrite all_space_rev). reflexivity.
Qed.

End StrFacts.

Import StrFacts PyText EmailTools.

Lemma split_on_nonempty c s : split_on c s <> [].
Proof.
  destruct s as [|d s]; simpl; [discriminate|].
  destruct (Ascii.eqb d c); [discriminate|]. destruct (split_on c s); discriminate.
Qed.

Lemma split_on_app c a b : split_on c (a ++ String c b) = (split_on c a ++ split_on c b)%list.
Proof.
  induction a as [|d a IH]; simpl.
  - rewrite Ascii.eqb_refl. reflexivity.
  - destruct (Ascii.eqb d c); [rewrite IH; reflexivity|].
    rewrite IH. destruct (split_on c a) as [|w ws] eqn:E;
      [exfalso; exact (split_on_nonempty c a E) | reflexivity].
Qed.

Lemma split_on_no_sep c s : contains s (String c EmptyString) = false -> split_on c s = [s].
Proof.
  induction s as [|d s IH]; simpl; [reflexivity|].
  intros H. apply orb_false_iff in H. destruct H as [H1 H2].
  rewrite andb_true_r in H1. rewrite IH by exact H2.
  destruct (Ascii.eqb_spec d c) as [->|Hd]; [rewrite Ascii.eqb_refl in H1; discriminate|].
  reflexivity.
Qed.

Lemma join_cons_cons sep x y ys : join sep (x :: y :: ys) = x ++ sep ++ join sep (y :: ys).
Proof. destruct ys; reflexivity. Qed.

Lemma join_cons_head sep d w ws : join sep (String d w :: ws) = String d (join sep (w :: ws)).
Proof. destruct ws; reflexivity. Qed.

(** [join] undoes [split]. *)
Lemma join_split s : join nl (split_on nlc s) = s.
Proof.
  induction s as [|d s IH]; simpl; [reflexivity|].
  destruct (Ascii.eqb_spec d nlc) as [->|Hd].
  - destruct (split_on nlc s) as [|w ws] eqn:E; [exfalso; exact (split_on_nonempty _ _ E)|].
    rewrite join_cons_cons, IH. reflexivity.
  - destruct (split_on nlc s) as [|w ws] eqn:E; [exfalso; exact (split_on_nonempty _ _ E)|].
    rewrite join_cons_head, IH. reflexivity.
Qed.

Lemma length_app s t : String.length (s ++ t) = (String.length s + String.length t)%nat.
Proof. induction s as [|c s IH]; simpl; [reflexivity | now rewrite IH]. Qed.

Lemma drop_app s t : drop (String.length s) (s ++ t) = t.
Proof. induction s as [|c s IH]; simpl; [reflexivity | exact IH]. Qed.

Lemma take_app s t : take (String.length s) (s ++ t) = s.
Proof.
  unfold take. induction s as [|c s IH]; simpl; [destruct t; reflexivity|]. now rewrite IH.
Qed.

Lemma endswith_app s p : endswith (s ++ p) p = true.
Proof.
  unfold endswith. rewrite length_app.
  replace (String.length s + String.length p - String.length p)%nat with (String.length s) by lia.
  rewrite drop_app, String.eqb_refl, andb_true_r. apply Nat.leb_le. lia.
Qed.

Lemma drop_last_app s p : drop_last (String.length p) (s ++ p) = s.
Proof.
  unfold drop_last. rewrite length_app.
  replace (String.length s + String.length p - String.length p)%nat with (String.length s) by lia.
  apply take_app.
Qed.

Lemma replace_fuel_absent old new fuel s :
  contains s old = false -> replace_fuel fuel s old new = s.
Proof.
  revert s; induction fuel as [|f IH]; intros s H; simpl; [reflexivity|].
  destruct s as [|c s]; [reflexivity|].
  simpl in H. apply orb_false_iff in H. destruct H as [H1 H2].
  change (startswith (String c s) old) with (startswith (String c s) old).
  destruct old as [|o old']; [discriminate|].
  unfold startswith in H1 |- *; fold startswith in H1 |- *. rewrite H1.
  f_equal. apply IH, H2.
Qed.

Lemma scan_headers_no_blank lines i r :
  forallb (fun l => negb (String.eqb (strip l) "")) lines = true ->
  snd (scan_headers lines i r) = 0%nat.
Proof.
  revert i r; induction lines as [|l lines IH]; intros i r H; [reflexivity|].
  cbn [scan_headers]. cbn [forallb] in H. apply andb_true_iff in H. destruct H as [Hl H].
  destruct (startswith l "From:"); [auto|].
  destruct (startswith l "To:"); [auto|].
  destruct (startswith l "Subject:"); [auto|].
  destruct (String.eqb (strip l) ""); [discriminate | auto].
Qed.

(** X6: an email with no blank line has no header/body separator:
    [body_start] stays 0, and the body is the whole text, header lines
    included, stripped. *)
Theorem parse_email_no_blank_line (text : string)
  (H : forallb (fun l => negb (String.eqb (strip l) "")) (split_on nlc text) = true) :
  body (parse_email text) = strip text.
Proof.
  unfold parse_email.
  pose proof (scan_headers_no_blank (split_on nlc text) 0 (mkEmailData "" "" "" "") H) as Hs.
  destruct (scan_headers (split_on nlc text) 0 (mkEmailData "" "" "" "")) as [r n].
  simpl in Hs |- *. subst n. simpl. rewrite join_split. reflexivity.
Qed.

Lemma parse_email_no_blank_line_witness :
  let text := "From: a@b.com" ++ nl ++ "Subject: Hi" ++ nl ++ "Call Bob" in
  forallb (fun l => negb (String.eqb (strip l) "")) (split_on nlc text) = true /\
  body (parse_email text) = strip text.
Proof.
  intros text. assert (H : forallb (fun l => negb (String.eqb (strip l) "")) (split_on nlc text) = true)
    by reflexivity.
  split; [exact H | exact (parse_email_no_blank_line text H)].
Defined.

Lemma split_line p x rest :
  contains (p ++ x) nl = false ->
  split_on nlc ((p ++ x) ++ String nlc rest) = (p ++ x) :: split_on nlc rest.
Proof. intros H. rewrite split_on_app, (split_on_no_sep nlc (p ++ x) H). reflexivity. Qed.

Lemma strip_space_cons s : strip (String " " s) = strip s.
Proof.
  rewrite <- (string_app_nil_r s) at 1.
  exact (strip_pad (String " " EmptyString) s EmptyString eq_refl eq_refl).
Qed.

Lemma startswith_prefix p x : startswith (p ++ x) p = true.
Proof. induction p as [|c p IH]; simpl; [reflexivity|]. now rewrite Ascii.eqb_refl, IH. Qed.

Lemma replace_prefix tag x :
  tag <> EmptyString -> contains x tag = false -> replace (tag ++ x) tag "" = x.
Proof.
  intros Ht Hx. unfold replace. rewrite length_app.
  destruct tag as [|c tg]; [congruence|].
  cbn [String.length Nat.add replace_fuel append].
  change (String c (tg ++ x)) with (String c tg ++ x).
  rewrite startswith_prefix.
  change (S (String.length tg)) with (String.length (String c tg)).
  rewrite drop_app. apply replace_fuel_absent, Hx.
Qed.

(** X7: a message laid out as "From:", "To:" and "Subject:" lines, a blank
    line and a body is split into its four fields, each stripped, provided
    no field value holds a newline or repeats its own header tag ([replace]
    removes every occurrence of the tag). *)
Theorem parse_email_headers (f t sj b : string)
  (Hf : contains f nl = false) (Ht : contains t nl = false) (Hs : contains sj nl = false)
  (Hf' : contains f "From:" = false) (Ht' : contains t "To:" = false)
  (Hs' : contains sj "Subject:" = false) :
  parse_email ("From: " ++ f ++ nl ++ "To: " ++ t ++ nl ++ "Subject: " ++ sj ++ nl ++ nl ++ b) =
  mkEmailData (strip f) (strip t) (strip sj) (strip b).
Proof.
  assert (E : "From: " ++ f ++ nl ++ "To: " ++ t ++ nl ++ "Subject: " ++ sj ++ nl ++ nl ++ b =
              ("From: " ++ f) ++ String nlc (("To: " ++ t) ++ String nlc
                (("Subject: " ++ sj) ++ String nlc (String nlc b)))).
  { rewrite !string_app_assoc. reflexivity. }
  assert (Lines : split_on nlc
            ("From: " ++ f ++ nl ++ "To: " ++ t ++ nl ++ "Subject: " ++ sj ++ nl ++ nl ++ b) =
          ("From: " ++ f) :: ("To: " ++ t) :: ("Subject: " ++ sj) :: "" :: split_on nlc b).
  { rewrite E, !split_line; [reflexivity | simpl; exact Hs | simpl; exact Ht | simpl; exact Hf]. }
  unfold parse_email. rewrite Lines.
  change ("From: " ++ f) with ("From:" ++ String " " f).
  change ("To: " ++ t) with ("To:" ++ String " " t).
  change ("Subject: " ++ sj) with ("Subject:" ++ String " " sj).
  cbn [scan_headers].
  rewrite !startswith_prefix.
  rewrite (replace_prefix "From:" (String " " f)), (replace_prefix "To:" (String " " t)),
    (replace_prefix "Subject:" (String " " sj)), !strip_space_cons;
    [| discriminate | simpl; exact Hs' | discriminate | simpl; exact Ht'
     | discriminate | simpl; exact Hf'].
  simpl. rewrite join_split.
  reflexivity.
Qed.

Lemma parse_email_headers_witness :
  contains "a@b.com" nl = false /\ contains "c@d.org" nl = false /\
  contains "Review" nl = false /\ contains "a@b.com" "From:" = false /\
  contains "c@d.org" "To:" = false /\ contains "Review" "Subject:" = false /\
  parse_email ("From: " ++ "a@b.com" ++ nl ++ "To: " ++ "c@d.org" ++ nl ++ "Subject: " ++
               "Review" ++ nl ++ nl ++ "Please review the deck.") =
  mkEmailData (strip "a@b.com") (strip "c@d.org") (strip "Review")
              (strip "Please review the deck.").
Proof.
  assert (H1 : contains "a@b.com" nl = false) by reflexivity.
  assert (H2 : contains "c@d.org" nl = false) by reflexivity.
  assert (H3 : contains "Review" nl = false) by reflexivity.
  assert (H4 : contains "a@b.com" "From:" = false) by reflexivity.
  assert (H5 : contains "c@d.org" "To:" = false) by reflexivity.
  assert (H6 : contains "Review" "Subject:" = false) by reflexivity.
  repeat (split; [assumption|]).
  exact (parse_email_headers _ _ _ _ H1 H2 H3 H4 H5 H6).
Defined.

(** ** Signature lines and [extract_actionable_text] *)

Lemma sig_free_cons lit c s b :
  sig_free lit (String c s) b = negb (b && sig_match lit (String c s)) && sig_free lit s (Ascii.eqb c nlc).
Proof. reflexivity. Qed.

Lemma go_empty f lit b : sub_sig_fuel f lit "" b = "".
Proof. destruct f; reflexivity. Qed.

Lemma go_cons_nomatch f lit c s b :
  b && sig_match lit (String c s) = false ->
  sub_sig_fuel (S f) lit (String c s) b = String c (sub_sig_fuel f lit s (Ascii.eqb c nlc)).
Proof. intros H. cbn [sub_sig_fuel]. rewrite H. reflexivity. Qed.

Lemma go_cons_match f lit c s b :
  b && sig_match lit (String c s) = true ->
  sub_sig_fuel (S f) lit (String c s) b = sub_sig_fuel f lit (after_match lit (String c s)) false.
Proof. intros H. cbn [sub_sig_fuel]. rewrite H. reflexivity. Qed.

Lemma is_space_nlc : is_space nlc = true.
Proof. reflexivity. Qed.

Lemma nonspace_not_nl c : is_space c = false -> Ascii.eqb c nlc = false.
Proof.
  intros H. destruct (Ascii.eqb_spec c nlc) as [E|E]; [|reflexivity].
  subst c. rewrite is_space_nlc in H. discriminate.
Qed.

Lemma sig_match_cons_space lit c s : is_space c = true -> sig_match lit (String c s) = sig_match lit s.
Proof. intros H. unfold sig_match. cbn [lstrip]. rewrite H. reflexivity. Qed.

Lemma sig_match_cons_nonspace lit c s :
  is_space c = false -> sig_match lit (String c s) = startswith (String c s) lit.
Proof. intros H. unfold sig_match. cbn [lstrip]. rewrite H. reflexivity. Qed.

Lemma sig_match_empty lit : lit <> "" -> sig_match lit "" = false.
Proof. intros H. destruct lit; [congruence | reflexivity]. Qed.

Lemma contains_cons_nl d q :
  contains (String d q) nl = false -> Ascii.eqb d nlc = false /\ contains q nl = false.
Proof.
  intros H. cbn [contains] in H. apply orb_false_iff in H as [H1 H2]. split; [|exact H2].
  unfold nl in H1. cbn [startswith] in H1. rewrite andb_true_r in H1.
  rewrite Ascii.eqb_sym. exact H1.
Qed.

Lemma startswith_app_l a r q : startswith a q = true -> startswith (a ++ r) q = true.
Proof.
  revert a; induction q as [|d q IH]; intros [|c a] H; cbn [startswith append] in *;
    try discriminate; auto.
  apply andb_true_iff in H as [H1 H2]. rewrite H1. simpl. auto.
Qed.

Lemma startswith_lstrip_app a r q :
  q <> "" -> startswith (lstrip (a ++ r)) q = false -> startswith (lstrip a) q = false.
Proof.
  intros Hq H. rewrite lstrip_app in H. destruct (String.eqb (lstrip a) "") eqn:E.
  - apply String.eqb_eq in E. rewrite E. destruct q; [congruence | reflexivity].
  - destruct (startswith (lstrip a) q) eqn:S; [|reflexivity].
    rewrite (startswith_app_l _ r _ S) in H. discriminate.
Qed.

(** Away from a line start, [sub_sig_fuel] copies the line up to its
    newline: a prefix without newline is seen unchanged. *)
Lemma startswith_go_nobol f lit s q :
  contains q nl = false -> startswith (sub_sig_fuel f lit s false) q = startswith s q.
Proof.
  revert s q; induction f as [|f IH]; intros s q Hq; [reflexivity|].
  destruct s as [|c s]; [reflexivity|].
  rewrite go_cons_nomatch by reflexivity.
  destruct q as [|d q]; [reflexivity|].
  apply contains_cons_nl in Hq as [Hd Hq]. cbn [startswith].
  destruct (Ascii.eqb d c) eqn:Edc; [|reflexivity].
  apply Ascii.eqb_eq in Edc. subst d. rewrite Hd. simpl. apply IH, Hq.
Qed.

Lemma startswith_go_cons f lit c s q :
  contains q nl = false -> Ascii.eqb c nlc = false ->
  startswith (String c (sub_sig_fuel f lit s false)) q = startswith (String c s) q.
Proof.
  intros Hq Hc. rewrite <- (startswith_go_nobol (S f) lit (String c s) q Hq).
  rewrite go_cons_nomatch by reflexivity. rewrite Hc. reflexivity.
Qed.

Lemma length_lstrip s : (String.length (lstrip s) <= String.length s)%nat.
Proof. induction s as [|c s IH]; simpl; [lia|]. destruct (is_space c); simpl; lia. Qed.

Lemma length_drop n s : (String.length (drop n s) <= String.length s - n)%nat.
Proof. revert s; induction n as [|n IH]; intros [|c s]; simpl; try lia. specialize (IH s); lia. Qed.

Lemma length_to_eol s : (String.length (to_eol s) <= String.length s)%nat.
Proof. induction s as [|c s IH]; simpl; [lia|]. destruct (Ascii.eqb c nlc); simpl; lia. Qed.

Lemma length_after_match lit s :
  lit <> "" -> s <> "" -> (String.length (after_match lit s) < String.length s)%nat.
Proof.
  intros Hl Hs. unfold after_match.
  pose proof (length_to_eol (drop (String.length lit) (lstrip s))).
  pose proof (length_drop (String.length lit) (lstrip s)).
  pose proof (length_lstrip s).
  destruct lit as [|x lit]; [congruence|]. destruct s as [|y s]; [congruence|].
  simpl String.length in *. lia.
Qed.

Lemma to_eol_shape s :
  to_eol s = "" \/ exists w r, s = w ++ String nlc r /\ to_eol s = String nlc r.
Proof.
  induction s as [|c s IH]; simpl; [auto|].
  destruct (Ascii.eqb c nlc) eqn:E.
  - right. apply Ascii.eqb_eq in E. subst c. exists "", s. auto.
  - destruct IH as [H|(w&r&H1&H2)]; [auto|]. right. exists (String c w), r. split; [rewrite H1; reflexivity | exact H2].
Qed.

Lemma lstrip_suffix s : exists w, s = w ++ lstrip s.
Proof.
  induction s as [|c s IH]; simpl; [exists ""; reflexivity|].
  destruct (is_space c).
  - destruct IH as [w Hw]. exists (String c w). simpl. rewrite <- Hw. reflexivity.
  - exists "". reflexivity.
Qed.

Lemma drop_suffix n s : exists w, s = w ++ drop n s.
Proof.
  revert s; induction n as [|n IH]; intros [|c s]; simpl; try (exists ""; reflexivity).
  destruct (IH s) as [w Hw]. exists (String c w). simpl. rewrite <- Hw. reflexivity.
Qed.

Lemma after_match_shape lit s :
  after_match lit s = "" \/ exists w r, s = w ++ String nlc r /\ after_match lit s = String nlc r.
Proof.
  unfold after_match.
  destruct (to_eol_shape (drop (String.length lit) (lstrip s))) as [H|(w&r&H1&H2)]; [auto|right].
  destruct (lstrip_suffix s) as [w1 E1]. destruct (drop_suffix (String.length lit) (lstrip s)) as [w2 E2].
  exists (w1 ++ w2 ++ w), r. split; [|exact H2].
  rewrite E1. rewrite E2. rewrite H1. rewrite !string_app_assoc. reflexivity.
Qed.

Lemma sig_free_true_false lit s : sig_free lit s true = true -> sig_free lit s false = true.
Proof. destruct s as [|c s]; [auto|]. rewrite !sig_free_cons. intros H. apply andb_true_iff in H as [_ H]. exact H. Qed.

Lemma sig_free_false_true lit s :
  sig_free lit s false = true -> sig_match lit s = false -> sig_free lit s true = true.
Proof. destruct s as [|c s]; [auto|]. rewrite !sig_free_cons. intros H1 H2. rewrite H2. exact H1. Qed.

Lemma sig_free_head lit s : lit <> "" -> sig_free lit s true = true -> sig_match lit s = false.
Proof.
  intros Hl. destruct s as [|c s].
  - intros _. apply sig_match_empty, Hl.
  - rewrite sig_free_cons. intros H. apply andb_true_iff in H as [H _].
    destruct (sig_match lit (String c s)); [discriminate | reflexivity].
Qed.

Lemma sig_free_app_nl lit w r b : sig_free lit (w ++ String nlc r) b = true -> sig_free lit r true = true.
Proof.
  revert b; induction w as [|c w IH]; intros b H; cbn [append] in H; rewrite sig_free_cons in H;
    apply andb_true_iff in H as [_ H].
  - rewrite Ascii.eqb_refl in H. exact H.
  - exact (IH _ H).
Qed.

Lemma sig_free_app_r lit w y b : sig_free lit (w ++ y) b = true -> sig_free lit y false = true.
Proof.
  revert b; induction w as [|c w IH]; intros b H; cbn [append] in H.
  - destruct b; [apply sig_free_true_false|]; exact H.
  - rewrite sig_free_cons in H. apply andb_true_iff in H as [_ H]. exact (IH _ H).
Qed.

Lemma sig_free_app_l lit p w b : lit <> "" -> sig_free lit (p ++ w) b = true -> sig_free lit p b = true.
Proof.
  intros Hl. revert b; induction p as [|c p IH]; intros b H; [reflexivity|].
  cbn [append] in H. rewrite sig_free_cons in H |- *. apply andb_true_iff in H as [H1 H2].
  rewrite (IH _ H2), andb_true_r.
  destruct b; [|reflexivity]. cbn [andb negb] in H1 |- *.
  destruct (sig_match lit (String c (p ++ w))) eqn:E; [discriminate|].
  unfold sig_match in E |- *. change (String c (p ++ w)) with (String c p ++ w) in E.
  rewrite (startswith_lstrip_app _ _ _ Hl E). reflexivity.
Qed.

(** Removing [^\s*LIT.*] never makes [LIT] appear at a line start that did
    not show it before. *)
Lemma sig_match_go_same lit f s b :
  contains lit nl = false -> sig_match lit s = false -> sig_match lit (sub_sig_fuel f lit s b) = false.
Proof.
  intros Hn. revert s b; induction f as [|f IH]; intros s b H; [exact H|].
  destruct s as [|c s]; [exact H|].
  rewrite go_cons_nomatch by (rewrite H; apply andb_false_r).
  destruct (is_space c) eqn:Ec.
  - rewrite sig_match_cons_space by exact Ec. rewrite sig_match_cons_space in H by exact Ec.
    exact (IH _ _ H).
  - rewrite sig_match_cons_nonspace by exact Ec. rewrite sig_match_cons_nonspace in H by exact Ec.
    rewrite (nonspace_not_nl _ Ec). rewrite startswith_go_cons; [exact H | exact Hn | exact (nonspace_not_nl _ Ec)].
Qed.

Lemma sig_match_go_other lit1 lit2 f s b :
  lit1 <> "" -> contains lit1 nl = false ->
  sig_free lit1 s b = true -> sig_match lit1 s = false ->
  sig_match lit1 (sub_sig_fuel f lit2 s b) = false.
Proof.
  intros Hl Hn. revert s b; induction f as [|f IH]; intros s b Hf Hm; [exact Hm|].
  destruct s as [|c s]; [exact Hm|].
  destruct (b && sig_match lit2 (String c s)) eqn:E.
  - rewrite (go_cons_match _ _ _ _ _ E).
    destruct (after_match_shape lit2 (String c s)) as [A|(w&r&Hs&A)]; rewrite A.
    + rewrite go_empty. apply sig_match_empty, Hl.
    + rewrite Hs in Hf. pose proof (sig_free_app_nl _ _ _ _ Hf) as Hr.
      apply IH.
      * rewrite sig_free_cons, Ascii.eqb_refl, Hr. reflexivity.
      * rewrite sig_match_cons_space by exact is_space_nlc. exact (sig_free_head _ _ Hl Hr).
  - rewrite (go_cons_nomatch _ _ _ _ _ E). rewrite sig_free_cons in Hf.
    apply andb_true_iff in Hf as [_ Hf].
    destruct (is_space c) eqn:Ec.
    + rewrite sig_match_cons_space by exact Ec. rewrite sig_match_cons_space in Hm by exact Ec.
      exact (IH _ _ Hf Hm).
    + rewrite sig_match_cons_nonspace by exact Ec. rewrite sig_match_cons_nonspace in Hm by exact Ec.
      rewrite (nonspace_not_nl _ Ec). rewrite startswith_go_cons; [exact Hm | exact Hn | exact (nonspace_not_nl _ Ec)].
Qed.

(** One pass of [re.sub(r'^\s*LIT.*', '', text, flags=re.MULTILINE)]
    leaves no line start where the pattern matches. *)
Lemma sub_sig_free lit f s b :
  lit <> "" -> contains lit nl = false -> (String.length s <= f)%nat ->
  sig_free lit (sub_sig_fuel f lit s b) b = true.
Proof.
  intros Hl Hn. revert s b. induction f as [f IH] using (well_founded_induction lt_wf).
  intros s b Hlen. destruct f as [|f].
  - destruct s as [|c s]; [reflexivity | simpl in Hlen; lia].
  - destruct s as [|c s]; [reflexivity|].
    destruct (b && sig_match lit (String c s)) eqn:E.
    + rewrite (go_cons_match _ _ _ _ _ E). apply andb_true_iff in E as [-> _].
      pose proof (length_after_match lit (String c s) Hl ltac:(discriminate)) as Hlt.
      destruct (after_match_shape lit (String c s)) as [A|(w&r&_&A)]; rewrite A in *.
      * rewrite go_empty. reflexivity.
      * destruct f as [|f]; [simpl in *; lia|].
        rewrite go_cons_nomatch by reflexivity. rewrite Ascii.eqb_refl.
        assert (Hr : sig_free lit (sub_sig_fuel f lit r true) true = true).
        { apply IH; [lia | simpl in *; lia]. }
        rewrite sig_free_cons, Ascii.eqb_refl, Hr, andb_true_r.
        rewrite sig_match_cons_space by exact is_space_nlc.
        rewrite (sig_free_head _ _ Hl Hr). reflexivity.
    + pose proof E as E'. rewrite (go_cons_nomatch _ _ _ _ _ E) in *.
      rewrite sig_free_cons. apply andb_true_iff. split.
      * destruct b; [|reflexivity]. simpl in E.
        rewrite <- (go_cons_nomatch f lit c s true E').
        rewrite (sig_match_go_same lit (S f) (String c s) true Hn E). reflexivity.
      * apply IH; [lia | simpl in Hlen; lia].
Qed.

(** A later pass for another literal keeps a text free of the earlier one. *)
Lemma sub_sig_preserves lit1 lit2 f s b :
  lit1 <> "" -> contains lit1 nl = false ->
  sig_free lit1 s b = true -> sig_free lit1 (sub_sig_fuel f lit2 s b) b = true.
Proof.
  intros Hl Hn. revert s b; induction f as [|f IH]; intros s b Hf; [exact Hf|].
  destruct s as [|c s]; [reflexivity|].
  destruct (b && sig_match lit2 (String c s)) eqn:E.
  - rewrite (go_cons_match _ _ _ _ _ E). apply andb_true_iff in E as [-> _].
    destruct (after_match_shape lit2 (String c s)) as [A|(w&r&Hs&A)]; rewrite A.
    + rewrite go_empty. reflexivity.
    + rewrite Hs in Hf. pose proof (sig_free_app_nl _ _ _ _ Hf) as Hr.
      assert (Hr' : sig_free lit1 (String nlc r) false = true).
      { rewrite sig_free_cons, Ascii.eqb_refl, Hr. reflexivity. }
      apply sig_free_false_true.
      * exact (IH _ _ Hr').
      * apply sig_match_go_other; [exact Hl | exact Hn | exact Hr' |].
        rewrite sig_match_cons_space by exact is_space_nlc. exact (sig_free_head _ _ Hl Hr).
  - pose proof E as E'. rewrite (go_cons_nomatch _ _ _ _ _ E).
    pose proof Hf as Hf0. rewrite sig_free_cons in Hf. apply andb_true_iff in Hf as [Hh Ht].
    rewrite sig_free_cons. apply andb_true_iff. split.
    + destruct b; [|reflexivity].
      rewrite <- (go_cons_nomatch f lit2 c s true E').
      rewrite (sig_match_go_other lit1 lit2 (S f) (String c s) true Hl Hn Hf0 (sig_free_head _ _ Hl Hf0)).
      reflexivity.
    + exact (IH _ _ Ht).
Qed.

Lemma sig_free_lstrip lit s : lit <> "" -> sig_free lit s true = true -> sig_free lit (lstrip s) true = true.
Proof.
  intros Hl H. destruct (lstrip_suffix s) as [w Hw]. apply sig_free_false_true.
  - rewrite Hw in H. exact (sig_free_app_r _ _ _ _ H).
  - unfold sig_match. rewrite lstrip_idem. exact (sig_free_head _ _ Hl H).
Qed.

Lemma rstrip_prefix x : exists w, x = srev (lstrip (srev x)) ++ w.
Proof.
  destruct (lstrip_suffix (srev x)) as [w Hw]. exists (srev w).
  rewrite <- rev_app, <- Hw, rev_involutive. reflexivity.
Qed.

Lemma sig_free_strip lit s : lit <> "" -> sig_free lit s true = true -> sig_free lit (strip s) true = true.
Proof.
  intros Hl H. rewrite strip_eq. apply sig_free_lstrip in H; [|exact Hl].
  destruct (rstrip_prefix (lstrip s)) as [w Hw]. rewrite Hw in H. exact (sig_free_app_l _ _ _ _ Hl H).
Qed.

Lemma nl_split_cases s :
  contains s nl = false \/ exists a r, contains a nl = false /\ s = a ++ String nlc r.
Proof.
  induction s as [|c s IH]; [left; reflexivity|].
  destruct (Ascii.eqb c nlc) eqn:E.
  - right. exists "", s. apply Ascii.eqb_eq in E. subst c. split; reflexivity.
  - assert (Hc : startswith (String c s) nl = false).
    { unfold nl. cbn [startswith]. rewrite andb_true_r, Ascii.eqb_sym. exact E. }
    destruct IH as [H|(a&r&Ha&Hs)].
    + left. cbn [contains]. rewrite H, Hc. reflexivity.
    + right. exists (String c a), r. split; [|rewrite Hs; reflexivity].
      cbn [contains]. rewrite Ha, orb_false_r. unfold nl. cbn [startswith].
      rewrite andb_true_r, Ascii.eqb_sym. exact E.
Qed.

Lemma sig_free_lines lit s :
  lit <> "" -> sig_free lit s true = true ->
  Forall (fun l => startswith (lstrip l) lit = false) (split_on nlc s).
Proof.
  intros Hl. remember (String.length s) as n eqn:En. revert s En.
  induction n as [n IH] using (well_founded_induction lt_wf). intros s En H.
  destruct (nl_split_cases s) as [Hs|(a&r&Ha&Hs)].
  - rewrite (split_on_no_sep nlc s Hs). constructor; [|constructor]. exact (sig_free_head _ _ Hl H).
  - subst s. rewrite split_on_app, (split_on_no_sep nlc a Ha). cbn [List.app]. constructor.
    + apply (startswith_lstrip_app a (String nlc r) lit Hl). exact (sig_free_head _ _ Hl H).
    + eapply IH; [|reflexivity|exact (sig_free_app_nl _ _ _ _ H)].
      rewrite En, length_app. simpl. lia.
Qed.

(** X8: [extract_actionable_text] removes every signature line: no line of
    its result, once its leading whitespace is dropped, starts with "--",
    "Best," or "Thanks,". *)
Theorem extract_actionable_text_no_signature_line d :
  Forall (fun l => startswith (lstrip l) "--" = false /\ startswith (lstrip l) "Best," = false /\
                   startswith (lstrip l) "Thanks," = false)
         (split_on nlc (extract_actionable_text d)).
Proof.
  unfold extract_actionable_text, sub_sig. cbv zeta.
  set (t0 := subject d ++ ". " ++ body d).
  set (t1 := sub_sig_fuel (String.length t0) "--" t0 true).
  set (t2 := sub_sig_fuel (String.length t1) "Best," t1 true).
  set (t3 := sub_sig_fuel (String.length t2) "Thanks," t2 true).
  assert (A1 : sig_free "--" t1 true = true) by (apply sub_sig_free; [discriminate | reflexivity | lia]).
  assert (A2 : sig_free "Best," t2 true = true) by (apply sub_sig_free; [discriminate | reflexivity | lia]).
  assert (A3 : sig_free "Thanks," t3 true = true) by (apply sub_sig_free; [discriminate | reflexivity | lia]).
  assert (B1 : sig_free "--" t2 true = true) by (apply sub_sig_preserves; [discriminate | reflexivity | exact A1]).
  assert (B2 : sig_free "--" t3 true = true) by (apply sub_sig_preserves; [discriminate | reflexivity | exact B1]).
  assert (B3 : sig_free "Best," t3 true = true) by (apply sub_sig_preserves; [discriminate | reflexivity | exact A2]).
  apply sig_free_strip in A3, B2, B3; try discriminate.
  apply sig_free_lines in A3, B2, B3; try discriminate.
  rewrite Forall_forall in *. intros l Hl. auto.
Qed.

(** ** [GeminiLLMService] *)
Import GeminiTools.

Lemma validate_shape v t :
  validate v = Some t ->
  t = v /\ exists d, v = PDict d /\ assoc_get d "title" <> None /\
    match assoc_get d "priority" with None | Some (PInt _) | Some (PBool _) => True | Some _ => False end.
Proof.
  unfold validate. destruct v as [| | | | |d]; try discriminate.
  destruct (assoc_get d "title") eqn:Ht; [|discriminate].
  destruct (assoc_get d "priority") as [pv|] eqn:Hp;
    [destruct pv; try discriminate | ]; intros H; injection H as <-;
    (split; [reflexivity | exists d; rewrite Ht, Hp; split; [reflexivity | split; [discriminate | exact I]]]).
Qed.

Lemma gemini_extract_dict g text :
  exists d, extract_task_structure g text = PDict d /\ assoc_get d "title" <> None /\
    match assoc_get d "priority" with None | Some (PInt _) | Some (PBool _) => True | Some _ => False end.
Proof.
  assert (F : exists d, fallback text = PDict d /\ assoc_get d "title" <> None /\
    match assoc_get d "priority" with None | Some (PInt _) | Some (PBool _) => True | Some _ => False end).
  { eexists. split; [reflexivity|]. split; [discriminate | exact I]. }
  unfold extract_task_structure.
  destruct (negb (has_key g)); [exact F|].
  destruct (generate_extract g text) as [[r|]|e]; [|exact F|exact F].
  destruct r as [|c r]; [exact F|].
  destruct (json_loads g (clean_response (String c r))) as [v|e]; [|exact F].
  destruct (validate v) as [t|] eqn:Hv; [|exact F].
  destruct (validate_shape _ _ Hv) as [-> (d & -> & H)]. exists d. auto.
Qed.

(** X9: [extract_task_structure] always returns a dict that has a "title"
    key and whose "priority", when present, is an int (a bool counts as an
    int in Python). *)
Theorem extract_task_structure_shape g text :
  exists d, extract_task_structure g text = PDict d /\ assoc_get d "title" <> None /\
    match assoc_get d "priority" with None | Some (PInt _) | Some (PBool _) => True | Some _ => False end.
Proof. exact (gemini_extract_dict g text). Qed.

(** X10: the result of [extract_task_structure] is either the fallback dict
    built from the text, or the value [json.loads] returned for the cleaned
    text of a non-empty model response, which needs an API key. *)
Theorem extract_task_structure_origin g text :
  extract_task_structure g text = fallback text \/
  (has_key g = true /\ exists r, r <> "" /\ generate_extract g text = Ok (Some r) /\
     json_loads g (clean_response r) = Ok (extract_task_structure g text)).
Proof.
  unfold extract_task_structure at 1.
  destruct (has_key g) eqn:Hk; [|left; reflexivity]. cbn [negb].
  destruct (generate_extract g text) as [[r|]|e] eqn:Hg; [|left; reflexivity|left; reflexivity].
  destruct r as [|c r]; [left; reflexivity|].
  destruct (json_loads g (clean_response (String c r))) as [v|e] eqn:Hj; [|left; reflexivity].
  destruct (validate v) as [t|] eqn:Hv; [|left; reflexivity].
  right. split; [reflexivity|]. exists (String c r). split; [discriminate|]. split; [reflexivity|].
  rewrite Hj. destruct (validate_shape _ _ Hv) as [-> _].
  unfold extract_task_structure. rewrite Hk, Hg, Hj, Hv. reflexivity.
Qed.

Lemma lstrip_nonspace_head c s : is_space c = false -> lstrip (String c s) = String c s.
Proof. intros H. cbn [lstrip]. rewrite H. reflexivity. Qed.

Lemma strip_fixed c m d :
  is_space c = false -> is_space d = false ->
  strip (String c m ++ String d "") = String c m ++ String d "".
Proof.
  intros Hc Hd. rewrite strip_eq.
  change (String c m ++ String d "") with (String c (m ++ String d "")).
  rewrite (lstrip_nonspace_head _ _ Hc).
  change (String c (m ++ String d "")) with (String c m ++ String d "").
  rewrite rev_app. change (srev (String d "")) with (String d "").
  change (String d "" ++ srev (String c m)) with (String d (srev (String c m))).
  rewrite (lstrip_nonspace_head _ _ Hd).
  change (String d (srev (String c m))) with (String d "" ++ srev (String c m)).
  change (String d "") with (srev (String d "")) at 1.
  rewrite <- rev_app, rev_involutive. reflexivity.
Qed.

(** X11: the model's answer wrapped in a markdown code fence, "```json" or a
    bare "```" on the first line and "```" on the last, is cleaned down to
    the stripped text between the fences before [json.loads]. *)
Theorem clean_response_fences j :
  clean_response ("```json" ++ nl ++ j ++ nl ++ "```") = strip j /\
  clean_response ("```" ++ nl ++ j ++ nl ++ "```") = strip j.
Proof.
  assert (Pad : strip (nl ++ j ++ nl) = strip j) by (apply strip_pad; reflexivity).
  assert (E2 : nl ++ j ++ nl ++ "```" = (nl ++ j ++ nl) ++ "```")
    by (rewrite !string_app_assoc; reflexivity).
  split; unfold clean_response.
  - assert (E1 : "```json" ++ nl ++ j ++ nl ++ "```" =
                 String "`" ("``json" ++ nl ++ j ++ nl ++ "``") ++ String "`" "")
      by (cbn [append]; rewrite !string_app_assoc; reflexivity).
    rewrite E1, strip_fixed, <- E1 by reflexivity.
    rewrite startswith_prefix.
    change 7%nat with (String.length "```json"). rewrite drop_app.
    change (startswith (nl ++ j ++ nl ++ "```") "```") with false. cbv iota.
    rewrite E2, endswith_app. change 3%nat with (String.length "```"). rewrite drop_last_app.
    exact Pad.
  - assert (E1 : "```" ++ nl ++ j ++ nl ++ "```" =
                 String "`" ("``" ++ nl ++ j ++ nl ++ "``") ++ String "`" "")
      by (cbn [append]; rewrite !string_app_assoc; reflexivity).
    rewrite E1, strip_fixed, <- E1 by reflexivity.
    change (startswith ("```" ++ nl ++ j ++ nl ++ "```") "```json") with false. cbv iota.
    rewrite startswith_prefix.
    change 3%nat with (String.length "```"). rewrite drop_app.
    rewrite E2, endswith_app, drop_last_app.
    exact Pad.
Qed.

Lemma pydict_set_get d k v k' :
  assoc_get (pydict_set d k v) k' = if String.eqb k' k then Some v else assoc_get d k'.
Proof.
  induction d as [|[k0 v0] d IH]; cbn [pydict_set assoc_get]; [reflexivity|].
  destruct (String.eqb_spec k k0) as [->|Hne]; cbn [assoc_get].
  - destruct (String.eqb k' k0); reflexivity.
  - rewrite IH. destruct (String.eqb_spec k' k0) as [->|]; [|reflexivity].
    destruct (String.eqb_spec k0 k); [congruence | reflexivity].
Qed.

Lemma assoc_get_not_in d k : ~ In k (map fst d) -> assoc_get d k = None.
Proof.
  induction d as [|[k0 v0] d IH]; intros H; [reflexivity|]. cbn [assoc_get].
  destruct (String.eqb_spec k k0) as [->|]; [exfalso; apply H; left; reflexivity|].
  apply IH. intros Hin. apply H. right. exact Hin.
Qed.

(** X12: the merged dict [{**a, **b}] of [enrich_task] maps a key to its
    value in [b] when [b] has it, and to its value in [a] otherwise ([b]
    is a dict: its keys are distinct). *)
Theorem merge_lookup a b k (Hb : NoDup (map fst b)) :
  assoc_get (merge a b) k = match assoc_get b k with Some v => Some v | None => assoc_get a k end.
Proof.
  unfold merge. revert a; induction b as [|[k1 v1] b IH]; intros a; [reflexivity|].
  cbn [fold_left map fst snd] in *. inversion Hb as [|? ? Hnin Hnd]; subst.
  rewrite (IH Hnd). cbn [assoc_get]. rewrite pydict_set_get.
  destruct (String.eqb_spec k k1) as [->|]; [|reflexivity].
  rewrite (assoc_get_not_in _ _ Hnin). reflexivity.
Qed.

Lemma merge_lookup_witness :
  NoDup (map fst [("priority", PInt 3); ("labels", PList [])]) /\
  assoc_get (merge [("title", PStr "t"); ("priority", PInt 1)] [("priority", PInt 3); ("labels", PList [])])
    "priority" = Some (PInt 3).
Proof.
  assert (H : NoDup (map fst [("priority", PInt 3); ("labels", PList [])])).
  { cbn. constructor; [intros [E|[]]; discriminate | constructor; [intros [] | constructor]]. }
  split; [exact H|].
  rewrite (merge_lookup _ _ "priority" H). reflexivity.
Defined.

Lemma merge_keeps a b k : assoc_get a k <> None -> assoc_get (merge a b) k <> None.
Proof.
  unfold merge. revert a; induction b as [|[k1 v1] b IH]; intros a H; [exact H|].
  cbn [fold_left fst snd]. apply IH. rewrite pydict_set_get.
  destruct (String.eqb k k1); [discriminate | exact H].
Qed.

(** X13: [enrich_task] on a dict returns either that dict unchanged, or the
    merge [{**task, **enriched}] with the dict [json.loads] parsed from a
    non-empty model response, which needs an API key. *)
Theorem enrich_task_outcome g a context :
  enrich_task g (PDict a) context = PDict a \/
  (has_key g = true /\ exists r b, r <> "" /\ generate_enrich g (PDict a) context = Ok (Some r) /\
     json_loads g (clean_response r) = Ok (PDict b) /\
     enrich_task g (PDict a) context = PDict (merge a b)).
Proof.
  unfold enrich_task.
  destruct (has_key g) eqn:Hk; [|left; reflexivity]. cbn [negb].
  destruct (generate_enrich g (PDict a) context) as [[r|]|e] eqn:Hg; [|left; reflexivity|left; reflexivity].
  destruct r as [|c r]; [left; reflexivity|].
  destruct (json_loads g (clean_response (String c r))) as [v|e] eqn:Hj; [|left; reflexivity].
  destruct v as [| | | | |b]; try (left; reflexivity).
  right. split; [reflexivity|]. exists (String c r), b. split; [discriminate|]. repeat split; assumption.
Qed.

(** X14: [enrich_task] never drops a key of a task dict: every key of the
    task is a key of the returned dict. *)
Theorem enrich_task_keeps_keys g a context :
  exists a', enrich_task g (PDict a) context = PDict a' /\
    forall k, assoc_get a k <> None -> assoc_get a' k <> None.
Proof.
  unfold enrich_task.
  destruct (negb (has_key g)); [exists a; auto|].
  destruct (generate_enrich g (PDict a) context) as [[r|]|e]; [|exists a; auto|exists a; auto].
  destruct r as [|c r]; [exists a; auto|].
  destruct (json_loads g (clean_response (String c r))) as [v|e]; [|exists a; auto].
  destruct v as [| | | | |b]; try (exists a; auto; fail).
  exists (merge a b). split; [reflexivity|]. intros k. apply merge_keeps.
Qed.

(** ** [ParserAgent] over [GeminiLLMService] *)
Import SourceEnv.

Lemma parser_fields_aux key vinit now vp g repr_patterns create tr text :
  exists d, Pipeline.extract_task_structure
              (source_env key vinit now vp g repr_patterns create tr) text = Ok (PDict d) /\
    Forall (fun k => assoc_get d k <> None) ["title"; "description"; "priority"; "due_date"; "labels"] /\
    match assoc_get d "priority" with Some (PInt _) | Some (PBool _) => True | _ => False end.
Proof.
  destruct (gemini_extract_dict g text) as (d0 & E & Ht & Hp).
  unfold Pipeline.extract_task_structure. cbn [source_env gemini_extract]. rewrite E.
  destruct (setdefault_dict d0 "title" (PStr (take 50 text))) as (d1 & -> & H1).
  destruct (setdefault_dict d1 "description" (PStr text)) as (d2 & -> & H2).
  destruct (setdefault_dict d2 "priority" (PInt 1)) as (d3 & -> & H3).
  destruct (setdefault_dict d3 "due_date" PNone) as (d4 & -> & H4).
  destruct (setdefault_dict d4 "labels" (PList [])) as (d5 & -> & H5).
  exists d5. split; [reflexivity|].
  assert (K : forall (dA dB : list (string * pyval)) k v,
             (forall k', assoc_get dB k' =
                match assoc_get dA k' with Some x => Some x | None => if String.eqb k' k then Some v else None end) ->
             (forall k', assoc_get dA k' <> None -> assoc_get dB k' <> None) /\ assoc_get dB k <> None).
  { intros dA dB k v H. split.
    - intros k' Hk'. rewrite H. destruct (assoc_get dA k'); [discriminate | contradiction].
    - rewrite H, String.eqb_refl. destruct (assoc_get dA k); discriminate. }
  destruct (K _ _ _ _ H1) as [P1 _]. destruct (K _ _ _ _ H2) as [P2 Q2].
  destruct (K _ _ _ _ H3) as [P3 Q3]. destruct (K _ _ _ _ H4) as [P4 Q4].
  destruct (K _ _ _ _ H5) as [P5 Q5].
  split.
  - repeat constructor.
    + exact (P5 _ (P4 _ (P3 _ (P2 _ (P1 _ Ht))))).
    + exact (P5 _ (P4 _ (P3 _ Q2))).
    + exact (P5 _ (P4 _ Q3)).
    + exact (P5 _ Q4).
    + exact Q5.
  - rewrite H5, H4, H3, H2, H1.
    change (String.eqb "priority" "labels") with false.
    change (String.eqb "priority" "due_date") with false.
    change (String.eqb "priority" "description") with false.
    change (String.eqb "priority" "title") with false.
    change (String.eqb "priority" "priority") with true.
    revert Hp. destruct (assoc_get d0 "priority") as [pv|]; intros Hp; [exact Hp | exact I].
Qed.

(** X15: with [GeminiLLMService] behind it, [ParserAgent.extract_task_structure]
    always returns a dict holding the five keys "title", "description",
    "priority", "due_date" and "labels", whose "priority" is an int (or a
    bool): the model's priority when it gave one, else 1. *)
Theorem parser_extract_fields key vinit now vp g repr_patterns create tr text :
  exists d, Pipeline.extract_task_structure
              (source_env key vinit now vp g repr_patterns create tr) text = Ok (PDict d) /\
    Forall (fun k => assoc_get d k <> None) ["title"; "description"; "priority"; "due_date"; "labels"] /\
    match assoc_get d "priority" with Some (PInt _) | Some (PBool _) => True | _ => False end.
Proof. exact (parser_fields_aux key vinit now vp g repr_patterns create tr text). Qed.

(** ** [VoiceProcessor] *)
Import VoiceTools.

Lemma lookup_in d k v : lookup d k = Some v -> In v (map snd d).
Proof.
  induction d as [|[k0 v0] d IH]; cbn [lookup]; [discriminate|].
  destruct (String.eqb k k0); [intros H; injection H as <-; left; reflexivity|].
  intros H. right. exact (IH H).
Qed.

(** X16: in mock mode [transcribe] never raises: it returns one of the three
    canned transcriptions, or the generic "Create new task with urgency". *)
Theorem transcribe_mock_mode vp p (H : mode vp = "mock") :
  exists s, transcribe vp p = Ok s /\
    (s = "Create new task with urgency" \/ In s (map snd mock_data)).
Proof.
  unfold transcribe. rewrite H. change (String.eqb "mock" "mock") with true. cbv iota.
  exists (transcribe_mock p). split; [reflexivity|].
  unfold transcribe_mock. destruct (lookup mock_data (path_name p)) as [v|] eqn:E.
  - right. exact (lookup_in _ _ _ E).
  - left. reflexivity.
Qed.

Lemma transcribe_mock_mode_witness :
  mode mock_vp = "mock" /\
  exists s, transcribe mock_vp "audio/test_voice_2.wav" = Ok s /\
    (s = "Create new task with urgency" \/ In s (map snd mock_data)).
Proof. split; [reflexivity|]. apply transcribe_mock_mode. reflexivity. Defined.

(** X17: [Path(file_path).name] ignores the directory part: a file name
    (non-empty, not ".", without "/") under any directory is found under
    that name, so the mock transcription depends only on the file name. *)
Theorem path_name_dir dir name
  (Hs : contains name "/" = false) (Hn : name <> "") (Hd : name <> ".") :
  path_name (dir ++ "/" ++ name) = name /\ transcribe_mock (dir ++ "/" ++ name) = transcribe_mock name.
Proof.
  assert (Hf : filter (fun x => negb (String.eqb x "") && negb (String.eqb x ".")) [name] = [name]).
  { cbn [filter]. destruct (String.eqb_spec name ""); [congruence|].
    destruct (String.eqb_spec name "."); [congruence|]. reflexivity. }
  assert (P : path_name (dir ++ "/" ++ name) = name).
  { unfold path_name. change ("/" ++ name) with (String "/" name).
    rewrite split_on_app, (split_on_no_sep "/" name Hs), filter_app, Hf. apply last_last. }
  assert (P' : path_name name = name).
  { unfold path_name. rewrite (split_on_no_sep "/" name Hs), Hf. reflexivity. }
  split; [exact P|]. unfold transcribe_mock. rewrite P, P'. reflexivity.
Qed.

Lemma path_name_dir_witness :
  contains "test_voice_1.wav" "/" = false /\ "test_voice_1.wav" <> "" /\ "test_voice_1.wav" <> "." /\
  path_name ("/tmp/uploads" ++ "/" ++ "test_voice_1.wav") = "test_voice_1.wav" /\
  transcribe_mock ("/tmp/uploads" ++ "/" ++ "test_voice_1.wav") = transcribe_mock "test_voice_1.wav".
Proof.
  assert (H1 : contains "test_voice_1.wav" "/" = false) by reflexivity.
  assert (H2 : "test_voice_1.wav" <> "") by discriminate.
  assert (H3 : "test_voice_1.wav" <> ".") by discriminate.
  split; [exact H1|]. split; [exact H2|]. split; [exact H3|].
  exact (path_name_dir "/tmp/uploads" "test_voice_1.wav" H1 H2 H3).
Defined.

(** X18: outside mock mode, a transcription is returned only for a file that
    exists, and only from the configured service: Whisper when the
    [openai] import succeeds and [WHISPER_API_KEY] is set, or Gemini audio. *)
Theorem transcribe_real_ok vp p s (Hm : mode vp <> "mock") (H : transcribe vp p = Ok s) :
  path_exists vp p = Ok true /\
  ((service vp = "whisper" /\ import_openai vp = Ok tt /\
    (exists k, whisper_api_key vp = Some k /\ k <> "") /\ whisper_call vp p = Ok s) \/
   (service vp = "gemini_audio" /\ gemini_audio vp p = Ok s)).
Proof.
  unfold transcribe in H. destruct (String.eqb_spec (mode vp) "mock"); [contradiction|].
  unfold transcribe_real in H. destruct (path_exists vp p) as [[|]|e]; try discriminate.
  split; [reflexivity|].
  destruct (String.eqb_spec (service vp) "whisper") as [Hw|Hw].
  - left. unfold transcribe_with_whisper in H.
    destruct (import_openai vp) as [[]|e]; [|discriminate].
    destruct (whisper_api_key vp) as [[|c k]|]; try discriminate.
    repeat split; auto. exists (String c k). split; [reflexivity | discriminate].
  - destruct (String.eqb_spec (service vp) "gemini_audio") as [Hg|Hg]; [|discriminate].
    right. auto.
Qed.

Lemma transcribe_real_ok_witness :
  mode real_vp <> "mock" /\ transcribe real_vp "memo.wav" = Ok "Call the vendor" /\
  path_exists real_vp "memo.wav" = Ok true /\
  ((service real_vp = "whisper" /\ import_openai real_vp = Ok tt /\
    (exists k, whisper_api_key real_vp = Some k /\ k <> "") /\ whisper_call real_vp "memo.wav" = Ok "Call the vendor") \/
   (service real_vp = "gemini_audio" /\ gemini_audio real_vp "memo.wav" = Ok "Call the vendor")).
Proof.
  assert (H1 : mode real_vp <> "mock") by discriminate.
  assert (H2 : transcribe real_vp "memo.wav" = Ok "Call the vendor") by reflexivity.
  split; [exact H1|]. split; [exact H2|].
  exact (transcribe_real_ok real_vp "memo.wav" "Call the vendor" H1 H2).
Defined.

(** ** [VikunjaBClient] and [VikunjaBAgent] *)
Import VikunjaApi VikunjaAgent.

Lemma authenticate_false h c : fst (authenticate h c) = false -> snd (authenticate h c) = c.
Proof.
  unfold VikunjaApi.authenticate.
  destruct (post_login h) as [[[st j] txt]|e]; [|reflexivity].
  destruct j as [j|e]; [destruct (py_get j "token" PNone) as [t|e]|];
    repeat match goal with |- context [match ?x with _ => _ end] => destruct x end;
    cbn; congruence.
Qed.

(** X19: [VikunjaBClient.create_task] returns a task only when the PUT
    request answered 200 or 201 with a JSON dict, and the task is that
    dict; the request carries the payload built from the arguments. *)
Theorem vikunja_create_task_ok h c title description priority due_date labels source_type v
  (H : fst (VikunjaApi.create_task h c title description priority due_date labels source_type) = Ok v) :
  exists status d text,
    put_task h (payload_of h (snd (VikunjaApi.create_task h c title description priority due_date labels source_type))
                  title description priority due_date source_type) = Ok (status, Ok (PDict d), text) /\
    (status = 200 \/ status = 201)%Z /\ v = PDict d.
Proof.
  revert H. unfold VikunjaApi.create_task.
  destruct (if truthy (token c) then (true, c) else VikunjaApi.authenticate h c) as [authed c1].
  destruct authed; cbn [negb fst snd]; [|discriminate].
  destruct (put_task h (payload_of h c1 title description priority due_date source_type))
    as [[[status json] text]|e]; [|discriminate].
  destruct ((status =? 200)%Z || (status =? 201)%Z) eqn:Hs; [|discriminate].
  destruct json as [task|e]; [|discriminate].
  destruct (py_get task "id" PNone) eqn:Hid; [|discriminate].
  intros Hv. injection Hv as <-.
  destruct task as [| | | | |d]; try discriminate.
  exists status, d, text. split; [reflexivity|]. split; [|reflexivity].
  apply orb_true_iff in Hs as [Hs|Hs]; apply Z.eqb_eq in Hs; auto.
Qed.

Lemma vikunja_create_task_ok_witness :
  exists v, fst (VikunjaApi.create_task echo_http fresh_client (PStr "Fix login") (PStr "") (PInt 2) PNone
                   (PList []) "email") = Ok v /\
  exists status d text,
    put_task echo_http (payload_of echo_http
                  (snd (VikunjaApi.create_task echo_http fresh_client (PStr "Fix login") (PStr "") (PInt 2) PNone
                          (PList []) "email"))
                  (PStr "Fix login") (PStr "") (PInt 2) PNone "email") = Ok (status, Ok (PDict d), text) /\
    (status = 200 \/ status = 201)%Z /\ v = PDict d.
Proof.
  eexists. split; [reflexivity|].
  apply (vikunja_create_task_ok echo_http fresh_client (PStr "Fix login") (PStr "") (PInt 2) PNone (PList []) "email").
  reflexivity.
Defined.

(** X20: with a token already set, a PUT answered with a status other than
    200 or 201 makes [create_task] raise "Vikunja error: " followed by the
    response text, and the client keeps its token. *)
Theorem vikunja_create_task_http_error h c title description priority due_date labels source_type
  status json text
  (Ht : truthy (token c) = true)
  (Hput : put_task h (payload_of h c title description priority due_date source_type) = Ok (status, json, text))
  (H200 : status <> 200%Z) (H201 : status <> 201%Z) :
  VikunjaApi.create_task h c title description priority due_date labels source_type =
  (Raise ("Vikunja error: " ++ text), c).
Proof.
  unfold VikunjaApi.create_task. rewrite Ht. cbn [negb]. rewrite Hput.
  apply Z.eqb_neq in H200. apply Z.eqb_neq in H201. rewrite H200, H201. reflexivity.
Qed.

Lemma vikunja_create_task_http_error_witness :
  VikunjaApi.create_task failing_http (mkVikunjaBClient (PStr "tok") 7) (PStr "t") (PStr "") (PInt 1) PNone
    (PList []) "text" = (Raise ("Vikunja error: " ++ "invalid project"), mkVikunjaBClient (PStr "tok") 7).
Proof.
  apply (vikunja_create_task_http_error _ _ _ _ _ _ _ _ 400%Z (Ok (PDict [])) "invalid project");
    [reflexivity | reflexivity | discriminate | discriminate].
Defined.

(** X21: without a token, when the login fails [create_task] raises "Not
    authenticated with Vikunja" and the client is left as it was. *)
Theorem vikunja_create_task_unauthenticated h c title description priority due_date labels source_type
  (Ht : truthy (token c) = false) (Ha : fst (VikunjaApi.authenticate h c) = false) :
  VikunjaApi.create_task h c title description priority due_date labels source_type =
  (Raise "Not authenticated with Vikunja", c).
Proof.
  pose proof (authenticate_false h c Ha) as Hc.
  unfold VikunjaApi.create_task. rewrite Ht.
  destruct (VikunjaApi.authenticate h c) as [ok c1]. cbn [fst snd] in Ha, Hc. subst ok c1. reflexivity.
Qed.

Lemma vikunja_create_task_unauthenticated_witness :
  truthy (token fresh_client) = false /\ fst (VikunjaApi.authenticate failing_http fresh_client) = false /\
  VikunjaApi.create_task failing_http fresh_client (PStr "t") (PStr "") (PInt 1) PNone (PList []) "voice" =
  (Raise "Not authenticated with Vikunja", fresh_client).
Proof.
  assert (H1 : truthy (token fresh_client) = false) by reflexivity.
  assert (H2 : fst (VikunjaApi.authenticate failing_http fresh_client) = false) by reflexivity.
  split; [exact H1|]. split; [exact H2|].
  exact (vikunja_create_task_unauthenticated _ _ _ _ _ _ _ _ H1 H2).
Defined.

(** X22: a login answered 200 whose JSON dict has no "token" still counts as
    a successful [authenticate]: it returns True and sets the token to
    None, so the next [create_task] logs in again. *)
Theorem authenticate_without_token h c d text
  (Hl : post_login h = Ok (200%Z, Ok (PDict d), text)) (Hd : assoc_get d "token" = None) :
  VikunjaApi.authenticate h c = (true, mkVikunjaBClient PNone (project_id c)) /\
  truthy (token (snd (VikunjaApi.authenticate h c))) = false.
Proof.
  assert (E : VikunjaApi.authenticate h c = (true, mkVikunjaBClient PNone (project_id c))).
  { unfold VikunjaApi.authenticate. rewrite Hl. cbn [py_get]. rewrite Hd. reflexivity. }
  rewrite E. split; reflexivity.
Qed.

Lemma authenticate_without_token_witness :
  VikunjaApi.authenticate tokenless_http fresh_client = (true, mkVikunjaBClient PNone 7) /\
  truthy (token (snd (VikunjaApi.authenticate tokenless_http fresh_client))) = false.
Proof.
  exact (authenticate_without_token tokenless_http fresh_client [("user", PStr "me")] "{}" eq_refl eq_refl).
Defined.

(** X23: [VikunjaBAgent.initialize] leaves the agent as it was when it fails,
    and once it has succeeded every later call returns True without any
    request and without changing the agent. *)
Theorem vikunja_agent_initialize h a ok a' (H : VikunjaAgent.initialize h a = (ok, a')) :
  (ok = false -> a' = a) /\
  (ok = true -> initialized_ a' = true /\ forall h', VikunjaAgent.initialize h' a' = (true, a')).
Proof.
  revert H. unfold VikunjaAgent.initialize.
  destruct (initialized_ a) eqn:Ei.
  - intros E. injection E as <- <-. split; [discriminate|]. intros _. split; [exact Ei|].
    intros h'. rewrite Ei. reflexivity.
  - destruct (test_connection h); cbn [negb].
    + destruct (VikunjaApi.authenticate h (client a)) as [b c1] eqn:Ea.
      destruct b; intros E; injection E as <- <-.
      * split; [discriminate|]. intros _. split; [reflexivity|]. intros h'. reflexivity.
      * split; [|discriminate]. intros _.
        pose proof (authenticate_false h (client a)) as Hc. rewrite Ea in Hc. cbn [fst snd] in Hc.
        rewrite (Hc eq_refl). destruct a as [i cl]. cbn in Ei |- *. subst i. reflexivity.
    + intros E. injection E as <- <-. split; [reflexivity | discriminate].
Qed.

Lemma vikunja_agent_initialize_witness :
  VikunjaAgent.initialize echo_http (mkVikunjaBAgent false fresh_client) =
    (true, mkVikunjaBAgent true (mkVikunjaBClient (PStr "tok") 7)) /\
  (true = false -> mkVikunjaBAgent true (mkVikunjaBClient (PStr "tok") 7) = mkVikunjaBAgent false fresh_client) /\
  (true = true -> initialized_ (mkVikunjaBAgent true (mkVikunjaBClient (PStr "tok") 7)) = true /\
     forall h', VikunjaAgent.initialize h' (mkVikunjaBAgent true (mkVikunjaBClient (PStr "tok") 7)) =
                (true, mkVikunjaBAgent true (mkVikunjaBClient (PStr "tok") 7))).
Proof.
  assert (H : VikunjaAgent.initialize echo_http (mkVikunjaBAgent false fresh_client) =
              (true, mkVikunjaBAgent true (mkVikunjaBClient (PStr "tok") 7))) by reflexivity.
  split; [exact H|]. exact (vikunja_agent_initialize _ _ _ _ H).
Defined.

(** X24: a task dict without "priority" and "due_date", created through
    [VikunjaBAgent.create_task] by a client that holds a token, is sent
    with priority 1, a start date of today, the client's project id and
    the colour of its source (the request body is observed through a
    server that echoes it back). *)
Theorem vikunja_agent_create_defaults h a d source_type
  (Hput : forall p, put_task h p = Ok (201%Z, Ok p, ""))
  (Ht : truthy (token (client a)) = true)
  (Hp : assoc_get d "priority" = None) (Hd : assoc_get d "due_date" = None) :
  exists P, fst (VikunjaAgent.create_task h a (PDict d) source_type) = Ok (PDict P) /\
    assoc_get P "priority" = Some (PInt 1) /\
    assoc_get P "start_date" = Some (PStr (now_start h)) /\
    assoc_get P "project_id" = Some (PInt (project_id (client a))) /\
    assoc_get P "hex_color" = Some (PStr (hex_color_for source_type)).
Proof.
  unfold VikunjaAgent.create_task, VikunjaApi.create_task. rewrite Ht. cbn [negb].
  rewrite Hput. cbn [Z.eqb orb Pos.eqb].
  unfold get_or. rewrite Hp, Hd.
  eexists. split; [reflexivity|].
  unfold payload_of, start_date_of. cbn [truthy].
  destruct (truthy (match assoc_get d "description" with Some v => v | None => PStr "" end));
    cbn [List.app assoc_get String.eqb Ascii.eqb Bool.eqb];
    repeat split; reflexivity.
Qed.

Lemma vikunja_agent_create_defaults_witness :
  exists P, fst (VikunjaAgent.create_task echo_http agent_with_token
                   (PDict [("title", PStr "Fix login"); ("labels", PList [])]) "email") = Ok (PDict P) /\
    assoc_get P "priority" = Some (PInt 1) /\
    assoc_get P "start_date" = Some (PStr (now_start echo_http)) /\
    assoc_get P "project_id" = Some (PInt (project_id (client agent_with_token))) /\
    assoc_get P "hex_color" = Some (PStr (hex_color_for "email")).
Proof.
  apply vikunja_agent_create_defaults; [intros p; reflexivity | reflexivity | reflexivity | reflexivity].
Defined.

(** ** The orchestrator over the real input processors *)

Lemma transcribe_mock_ok vp p : mode vp = "mock" -> VoiceTools.transcribe vp p = Ok (transcribe_mock p).
Proof. intros H. unfold VoiceTools.transcribe. rewrite H. reflexivity. Qed.

Lemma detect_mock_ok key vinit now vp g rp create tr input hint (Hm : mode vp = "mock") :
  exists n, detect_and_process (source_env key vinit now vp g rp create tr) input hint =
            Ok (n, resolve_type hint (detect_input_type input)).
Proof.
  unfold detect_and_process.
  set (r := resolve_type hint (detect_input_type input)).
  assert (Hr : r = "email" \/ r = "voice" \/ r = "text").
  { unfold r. destruct (resolve_type_spec hint (detect_input_type input))
      as [[[-> | ->] ->] | [_ [_ ->]]]; auto using detect_input_type_cases. }
  destruct Hr as [E | [E | E]]; rewrite E; cbn [String.eqb Ascii.eqb Bool.eqb];
    unfold process_email, process_voice, process_text; cbn [source_env email_actionable Pipeline.transcribe].
  - eexists. reflexivity.
  - rewrite (transcribe_mock_ok vp input Hm). eexists. reflexivity.
  - eexists. reflexivity.
Qed.

Lemma gemini_enrich_dict g a context : exists a', GeminiTools.enrich_task g (PDict a) context = PDict a'.
Proof.
  unfold GeminiTools.enrich_task.
  destruct (negb (has_key g)); [eexists; reflexivity|].
  destruct (generate_enrich g (PDict a) context) as [[[|c r]|]|e]; try (eexists; reflexivity).
  destruct (json_loads g (clean_response (String c r))) as [[| | | | |b]|e]; eexists; reflexivity.
Qed.

Lemma sum_priorities_bound (K : Z) (ts : list TaskMemory) :
  Forall (fun t => (Z.abs (priority t) < K)%Z) ts ->
  (Z.abs (sum_priorities ts) <= (K - 1) * Z.of_nat (length ts))%Z.
Proof.
  unfold sum_priorities. induction 1 as [|t ts Ht Hts IH]; simpl; [lia|].
  rewrite Zpos_P_of_succ_nat, Z.mul_succ_r. lia.
Qed.

(** When every stored priority is below [2^1023] in absolute value,
    [get_user_patterns] does not raise. *)
Lemma get_user_patterns_ok (m : SessionMemory) :
  Forall (fun t => (Z.abs (priority t) < 2 ^ 1023)%Z) (created_tasks m) ->
  exists r, get_user_patterns m = Ok r.
Proof.
  intros Hp. pose proof (sum_priorities_bound _ _ Hp) as Hb.
  unfold get_user_patterns. destruct (created_tasks m) as [|t0 ts0] eqn:Ets; [eexists; reflexivity|].
  set (ts := t0 :: ts0) in *.
  assert (Hlen : (0 < Z.of_nat (length ts))%Z) by (unfold ts; simpl length; lia).
  assert (Hsum : fold_left Z.add (map priority ts) 0%Z = sum_priorities ts)
    by (unfold sum_priorities; rewrite fold_left_Zadd; lia).
  rewrite Hsum.
  destruct (int_true_div (sum_priorities ts) (Z.of_nat (length ts))) as [f|e] eqn:Ediv;
    [eexists; reflexivity|].
  destruct (int_true_div_overflow _ _ _ Hlen Ediv) as [_ Hge].
  exfalso. clear - Hb Hge Hlen. lia.
Qed.

(** X25: with the email and voice processors and the Gemini service behind
    the orchestrator, the voice processor in mock mode, no tracer and a
    Vikunja client that returns a dict, [process_input] always returns a
    success envelope whose source is the resolved channel, once the Gemini
    key is set or the orchestrator is initialised and every stored priority
    is below [2^1023] in absolute value (so that the mean computed by
    [get_user_patterns] fits a float): no failure can come from the
    parsing, extraction or enrichment steps. *)
Theorem process_input_mock_success key vinit now vp g rp create input hint (o : Orchestrator)
  (Hk : initialized o || key_set (source_env key vinit now vp g rp create None) = true)
  (Hm : mode vp = "mock")
  (Hc : forall t s, exists d, create t s = Ok (PDict d))
  (Hp : Forall (fun t => (Z.abs (priority t) < 2 ^ 1023)%Z) (created_tasks (memory o))) :
  exists tid ti pr lb o',
    process_input (source_env key vinit now vp g rp create None) input hint o =
    (Ok (Success tid ti (resolve_type hint (detect_input_type input)) pr lb), o').
Proof.
  set (E := source_env key vinit now vp g rp create None) in *.
  rewrite process_input_eq, Hk. cbv zeta.
  change (tracer E) with (@None (res unit * res unit)). cbv iota.
  destruct (detect_mock_ok key vinit now vp g rp create None input hint Hm) as [n Hd].
  fold E in Hd.
  destruct (parser_fields_aux key vinit now vp g rp create None n) as (d & Hx & _).
  fold E in Hx.
  destruct (extract_task_title E n (PDict d) Hx) as [t0 Ht0].
  unfold process_body, Pipeline.enrich_task, bind, gets, ret, lift, modify.
  rewrite Hd. cbv beta iota. rewrite Hx. cbv beta iota. rewrite Ht0. cbv beta iota.
  match goal with |- context [get_user_patterns ?m] =>
    destruct (get_user_patterns_ok m Hp) as [pats Hpats]; rewrite Hpats end.
  cbv beta iota.
  unfold E. cbn [source_env gemini_enrich vikunja_create Pipeline.create_task].
  match goal with |- context [GeminiTools.enrich_task g (PDict d) ?c] =>
    destruct (gemini_enrich_dict g d c) as [a' Ha]; rewrite Ha end.
  cbn [py_get]. cbv beta iota.
  destruct (Hc (PDict a') (resolve_type hint (detect_input_type input))) as [cd Hcd].
  cbn [Pipeline.create_task source_env vikunja_create]. rewrite Hcd.
  cbv beta iota. destruct (truthy (PDict cd)); cbn [py_get]; cbv beta iota;
    do 5 eexists; reflexivity.
Qed.

Lemma process_input_mock_success_witness :
  initialized (mkOrchestrator memory_3 false) ||
    key_set (source_env (Some "key") true "2026-10-18T09:00:00" mock_vp keyless_gemini (fun _ => "")
               (fun _ _ => Ok (PDict [("id", PInt 42)])) None) = true /\
  mode mock_vp = "mock" /\
  (forall t s, exists d, (fun (_ : pyval) (_ : string) => Ok (PDict [("id", PInt 42)])) t s = Ok (PDict d)) /\
  Forall (fun t => (Z.abs (priority t) < 2 ^ 1023)%Z) (created_tasks (memory (mkOrchestrator memory_3 false))) /\
  exists tid ti pr lb o',
    process_input (source_env (Some "key") true "2026-10-18T09:00:00" mock_vp keyless_gemini (fun _ => "")
                     (fun _ _ => Ok (PDict [("id", PInt 42)])) None)
      "[voice] test_voice_1.wav" "voice" (mkOrchestrator memory_3 false) =
    (Ok (Success tid ti (resolve_type "voice" (detect_input_type "[voice] test_voice_1.wav")) pr lb), o').
Proof.
  assert (H1 : initialized (mkOrchestrator memory_3 false) ||
    key_set (source_env (Some "key") true "2026-10-18T09:00:00" mock_vp keyless_gemini (fun _ => "")
               (fun _ _ => Ok (PDict [("id", PInt 42)])) None) = true) by reflexivity.
  assert (H2 : mode mock_vp = "mock") by reflexivity.
  assert (H3 : forall t s, exists d,
             (fun (_ : pyval) (_ : string) => Ok (PDict [("id", PInt 42)])) t s = Ok (PDict d))
    by (intros t s; eexists; reflexivity).
  assert (H4 : Forall (fun t => (Z.abs (priority t) < 2 ^ 1023)%Z)
                 (created_tasks (memory (mkOrchestrator memory_3 false))))
    by (simpl; repeat constructor; simpl; lia).
  split; [exact H1|]. split; [exact H2|]. split; [exact H3|]. split; [exact H4|].
  exact (process_input_mock_success _ _ _ _ _ _ _ _ _ _ H1 H2 H3 H4).
Defined.

(** X26: with no tracer, and the Gemini key set or the orchestrator
    initialised, a voice input (hint "voice") outside mock mode whose audio
    file does not exist ([Path(p).exists()] returns [False]) makes
    [process_input] return the failure envelope "Audio file not found:
    <path>" with source "voice"; no interaction is recorded and the
    orchestrator is left initialised with its memory unchanged. *)
Theorem process_input_missing_audio key vinit now vp g rp create input (o : Orchestrator)
  (Hk : initialized o || key_set (source_env key vinit now vp g rp create None) = true)
  (Hm : mode vp <> "mock") (He : path_exists vp input = Ok false) :
  process_input (source_env key vinit now vp g rp create None) input "voice" o =
  (Ok (Failure ("Audio file not found: " ++ input) "voice"), mkOrchestrator (memory o) true).
Proof.
  rewrite process_input_eq, Hk. cbv zeta. cbn [source_env tracer].
  assert (Hd : detect_and_process (source_env key vinit now vp g rp create None) input "voice" =
               Raise ("Audio file not found: " ++ input)).
  { unfold detect_and_process, resolve_type. cbn [String.eqb Ascii.eqb Bool.eqb negb andb existsb].
    unfold process_voice. cbn [source_env Pipeline.transcribe].
    unfold VoiceTools.transcribe, transcribe_real.
    destruct (String.eqb_spec (mode vp) "mock"); [contradiction|]. rewrite He. reflexivity. }
  unfold process_body, bind, lift. rewrite Hd. reflexivity.
Qed.

Lemma process_input_missing_audio_witness :
  process_input (source_env (Some "key") true "2026-10-18T09:00:00" missing_vp keyless_gemini (fun _ => "")
                   (fun _ _ => Ok (PDict [])) None) "/tmp/memo.wav" "voice" (mkOrchestrator memory_3 false) =
  (Ok (Failure ("Audio file not found: " ++ "/tmp/memo.wav") "voice"), mkOrchestrator memory_3 true).
Proof.
  apply (process_input_missing_audio _ _ _ _ _ _ _ _ (mkOrchestrator memory_3 false));
    [reflexivity | discriminate | reflexivity].
Defined.
